(** * Crop Manager Pro: the knowledge base and the JSON data manager

    A shallow embedding of [KnowledgeBase] and [DataManager] of
    [src/main.py], and the properties of them that the specification
    states.

    Text.  A Python [str] is a Rocq [string] holding the UTF-8 bytes of the
    text, so that the glyphs of the report are the byte sequences of their
    code points and [text.encode()] is the identity.  The string methods
    ([lower], [strip], [replace], [in]) are those of Python on ASCII
    text: a byte above 127 has no case and is not white space.

    Numbers.  A Python [float] is a binary64 primitive float, a Python
    [int] is a [Z].

    Effects.  The only state is the store file, the clock and the source
    of random identifiers; they make up the [world] that every method of
    [DataManager] threads.  A method may raise: its outcome is a value or
    an exception, and the world it leaves behind is kept in both cases.
    In [DataManager] the disk takes every write and the messages are
    printed; [Faults] has the methods that write or print on a disk that
    may refuse and a console that may lack a character. *)

From Stdlib Require Import ZArith List String Ascii Bool Lia Floats DecimalString.
Import ListNotations.

#[local] Open Scope string_scope.
#[local] Open Scope Z_scope.
#[local] Set Warnings "-inexact-float,-register-all".

(* ================================================================== *)
(** ** Python strings *)
(* ================================================================== *)

Module PyStr.

(** The line feed of ["\n"]. *)
Definition nl : string := String (ascii_of_nat 10) "".

(** [s.replace(old, new)] for one-character [old] and [new]. *)
Fixpoint replace (old new : ascii) (s : string) : string :=
  match s with
  | "" => ""
  | String c s' =>
      String (if Ascii.eqb c old then new else c) (replace old new s')
  end.

(** [str.isspace] on ASCII: tab, line feed, vertical tab, form feed,
    carriage return, the four separators 0x1c to 0x1f, and space. *)
Definition isspace (c : ascii) : bool :=
  let n := nat_of_ascii c in
  ((9 <=? n) && (n <=? 13) || (28 <=? n) && (n <=? 32))%nat.

Fixpoint lstrip (s : string) : string :=
  match s with
  | "" => ""
  | String c s' => if isspace c then lstrip s' else s
  end.

Fixpoint rstrip (s : string) : string :=
  match s with
  | "" => ""
  | String c s' =>
      match rstrip s' with
      | "" => if isspace c then "" else String c ""
      | r => String c r
      end
  end.

(** [s.strip()] *)
Definition strip (s : string) : string := rstrip (lstrip s).

Definition lower_char (c : ascii) : ascii :=
  let n := nat_of_ascii c in
  if ((65 <=? n) && (n <=? 90))%nat then ascii_of_nat (n + 32) else c.

(** [s.lower()] *)
Fixpoint lower (s : string) : string :=
  match s with
  | "" => ""
  | String c s' => String (lower_char c) (lower s')
  end.

(** [needle in hay] on two strings: [needle] occurs in [hay]. *)
Fixpoint contains (needle hay : string) : bool :=
  if prefix needle hay then true
  else match hay with
       | "" => false
       | String _ hay' => contains needle hay'
       end.

(** [s[:n]] *)
Fixpoint take (n : nat) (s : string) : string :=
  match n, s with
  | S n', String c s' => String c (take n' s')
  | _, _ => ""
  end.

(** The decimal digits of a natural number. *)
Definition digits (n : Z) : string :=
  NilZero.string_of_uint (N.to_uint (Z.to_N n)).

(** [m * 2^e * 100] rounded to the nearest integer, ties to the even one:
    the hundredths that [format(x, ".2f")] prints for [x = m * 2^e]. *)
Definition hundredths (m : positive) (e : Z) : Z :=
  if 0 <=? e then Z.pos m * 2 ^ e * 100
  else
    let num := Z.pos m * 100 in
    let den := 2 ^ (- e) in
    let q := num / den in
    let r := num mod den in
    if 2 * r <? den then q
    else if den <? 2 * r then q + 1
    else if Z.even q then q else q + 1.

(** [format(x, ".2f")]: fixed point, two digits after the point, the
    sign kept on a negative zero. *)
Definition format_2f (x : float) : string :=
  match Prim2SF x with
  | S754_nan => "nan"
  | S754_infinity s => if s then "-inf" else "inf"
  | S754_zero s => (if s then "-" else "") ++ "0.00"
  | S754_finite s m e =>
      let h := hundredths m e in
      let frac := h mod 100 in
      (if s then "-" else "") ++ digits (h / 100) ++ "."
        ++ digits (frac / 10) ++ digits (frac mod 10)
  end.

(** [s.rfind(c)] for a character [c]: the index of its last occurrence,
    -1 when there is none. *)
Fixpoint rfind (c : ascii) (s : string) : Z :=
  match s with
  | "" => -1
  | String c' s' =>
      let r := rfind c s' in
      if 0 <=? r then r + 1 else if Ascii.eqb c' c then 0 else -1
  end.

(** [s[n:]] *)
Fixpoint drop (n : nat) (s : string) : string :=
  match n, s with
  | S n', String _ s' => drop n' s'
  | _, _ => s
  end.

(** [os.path.basename(p)] where [os.path] is [posixpath]:
    [i = p.rfind('/') + 1; return p[i:]]. *)
Definition basename (p : string) : string :=
  drop (Z.to_nat (rfind "/" p + 1)) p.

End PyStr.

(* ================================================================== *)
(** ** Python dicts with string keys, in their order of insertion *)
(* ================================================================== *)

Module PyDict.
Section Dict.
Context {V : Type}.

Fixpoint lookup (key : string) (d : list (string * V)) : option V :=
  match d with
  | [] => None
  | (k, v) :: d' => if String.eqb k key then Some v else lookup key d'
  end.

(** [key in d] *)
Definition mem (key : string) (d : list (string * V)) : bool :=
  match lookup key d with Some _ => true | None => false end.

(** [d.get(key, default)] *)
Definition get (key : string) (d : list (string * V)) (default : V) : V :=
  match lookup key d with Some v => v | None => default end.

(** [d[key] = v]: a key already there keeps its place, a new one goes
    last. *)
Fixpoint set (key : string) (v : V) (d : list (string * V))
    : list (string * V) :=
  match d with
  | [] => [(key, v)]
  | (k, v') :: d' =>
      if String.eqb k key then (k, v) :: d' else (k, v') :: set key v d'
  end.

Definition keys (d : list (string * V)) : list string := map fst d.

End Dict.
End PyDict.

(* ================================================================== *)
(** ** KnowledgeBase *)
(* ================================================================== *)

Module KnowledgeBase.
Import PyStr.

Record advice := Advice {
  cause : string;
  symptoms : string;
  treatment : string;
  prevention : string
}.

(** The class attribute [ADVICE], a dict in its order of insertion. *)
Definition ADVICE : list (string * advice) :=
  [ ("bacterial_spot",
     {| cause := "Bacterial infection (Xanthomonas)";
        symptoms := "Small, water-soaked spots on leaves turning brown/black.";
        treatment := "Apply copper-based fungicides. Remove infected leaves.";
        prevention := "Avoid overhead watering. Rotate crops yearly." |});
    ("early_blight",
     {| cause := "Fungal infection (Alternaria solani)";
        symptoms := "Concentric rings (bullseye pattern) on lower leaves.";
        treatment := "Use bio-fungicides or copper sprays.";
        prevention := "Mulch soil to prevent spore splash. Stake plants." |});
    ("late_blight",
     {| cause := "Water mold (Phytophthora infestans)";
        symptoms := "Large, dark, greasy blotches. White fuzzy growth.";
        treatment := "Use fungicides with chlorothalonil/copper immediately.";
        prevention := "Destroy infected debris. Do not compost." |});
    ("powdery_mildew",
     {| cause := "Fungal spores";
        symptoms := "White, flour-like powder on leaf surfaces.";
        treatment := "Neem oil, sulfur sprays, or baking soda mixture.";
        prevention := "Ensure good air circulation." |});
    ("healthy",
     {| cause := "N/A";
        symptoms := "Leaves are vibrant green and structurally sound.";
        treatment := "Continue current care routine.";
        prevention := "Monitor regularly." |}) ].

(** The default handed to [ADVICE.get]. *)
Definition generic_advice : advice :=
  {| cause := "Unknown pathogen or environmental stress.";
     symptoms := "Visible discoloration or lesions.";
     treatment := "Isolate plant. Consult local agricultural extension.";
     prevention := "Maintain general hygiene." |}.

(** [clean_label = raw_label.replace("_", " ").strip()] *)
Definition clean_label (raw_label : string) : string :=
  strip (replace "_" " " raw_label).

(** [is_healthy = "healthy" in clean_label.lower()] *)
Definition is_healthy (raw_label : string) : bool :=
  contains "healthy" (lower (clean_label raw_label)).

(** The loop over the keys of a dict, leaving at the first key that
    occurs in [low]; [key_match] starts as ["generic"]. *)
Fixpoint find_key (d : list (string * advice)) (low : string) : string :=
  match d with
  | [] => "generic"
  | (key, _) :: d' => if contains key low then key else find_key d' low
  end.

Definition key_match (raw_label : string) : string :=
  find_key ADVICE (lower (clean_label raw_label)).

(** [info = ADVICE.get(key_match, {...})] *)
Definition info (raw_label : string) : advice :=
  PyDict.get (key_match raw_label) ADVICE generic_advice.

Record report := Report {
  title : string;
  status : string;
  details : string
}.

(** The text of [details] for a given label, confidence and advisory. *)
Definition render_details (label : string) (confidence : float)
    (a : advice) : string :=
  "🔬 **DIAGNOSIS:** " ++ label ++ nl
  ++ "Confidence: " ++ format_2f (confidence * 100)%float ++ "%" ++ nl ++ nl
  ++ "📋 **SYMPTOMS:**" ++ nl ++ symptoms a ++ nl ++ nl
  ++ "💊 **TREATMENT:**" ++ nl ++ treatment a ++ nl ++ nl
  ++ "🛡️ **PREVENTION:**" ++ nl ++ prevention a.

Definition generate_report (raw_label : string) (confidence : float)
    : report :=
  {| title := (if is_healthy raw_label then "✅" else "⚠️")
                ++ " " ++ clean_label raw_label;
     status := if is_healthy raw_label then "Healthy" else "Infected";
     details := render_details (clean_label raw_label) confidence
                  (info raw_label) |}.

End KnowledgeBase.


(* ================================================================== *)
(** ** hashlib.sha256 *)
(* ================================================================== *)

Module Sha256.

(** Words are 32-bit, held in [Z] and reduced after each sum. *)
Definition add32 (x y : Z) : Z := (x + y) mod 2 ^ 32.

Definition rotr (n x : Z) : Z :=
  Z.lor (Z.shiftr x n) (Z.shiftl x (32 - n) mod 2 ^ 32).

Definition not32 (x : Z) : Z := Z.lxor x 0xffffffff.

Definition Ch (x y z : Z) : Z := Z.lxor (Z.land x y) (Z.land (not32 x) z).

Definition Maj (x y z : Z) : Z :=
  Z.lxor (Z.lxor (Z.land x y) (Z.land x z)) (Z.land y z).

Definition Sigma0 (x : Z) : Z :=
  Z.lxor (Z.lxor (rotr 2 x) (rotr 13 x)) (rotr 22 x).

Definition Sigma1 (x : Z) : Z :=
  Z.lxor (Z.lxor (rotr 6 x) (rotr 11 x)) (rotr 25 x).

Definition sigma0 (x : Z) : Z :=
  Z.lxor (Z.lxor (rotr 7 x) (rotr 18 x)) (Z.shiftr x 3).

Definition sigma1 (x : Z) : Z :=
  Z.lxor (Z.lxor (rotr 17 x) (rotr 19 x)) (Z.shiftr x 10).

(** The first 64 primes. *)
Definition is_prime (n : Z) : bool :=
  forallb (fun d => negb (n mod Z.of_nat d =? 0)) (seq 2 (Z.to_nat n - 2)).

Definition primes : list Z :=
  Eval vm_compute in filter is_prime (map Z.of_nat (seq 2 310)).

(** The greatest [r] with [lo <= r < hi] and [r ^ 3 <= x], by halving
    the interval [n] times. *)
Fixpoint cube_root (n : nat) (lo hi x : Z) : Z :=
  match n with
  | O => lo
  | S n' =>
      if hi - lo <=? 1 then lo
      else
        let mid := (lo + hi) / 2 in
        if mid * mid * mid <=? x then cube_root n' mid hi x
        else cube_root n' lo mid x
  end.

(** The round constants: the first 32 bits of the fractional parts of
    the cube roots of the first 64 primes. *)
Definition K : list Z :=
  Eval vm_compute in
    map (fun p => cube_root 64 0 (2 ^ 40) (p * 2 ^ 96) mod 2 ^ 32) primes.

Definition regs : Type := Z * Z * Z * Z * Z * Z * Z * Z.

(** The initial hash value: the first 32 bits of the fractional parts of
    the square roots of the first 8 primes. *)
Definition H0 : regs :=
  Eval vm_compute in
    match map (fun p => Z.sqrt (p * 2 ^ 64) mod 2 ^ 32) (firstn 8 primes) with
    | [a; b; c; d; e; f; g; h] => (a, b, c, d, e, f, g, h)
    | _ => (0, 0, 0, 0, 0, 0, 0, 0)
    end.

(** The bytes of a text. *)
Definition bytes_of (s : string) : list Z :=
  map (fun c => Z.of_nat (nat_of_ascii c)) (list_ascii_of_string s).

(** The [k] low bytes of [n], most significant first. *)
Fixpoint be_bytes (k : nat) (n : Z) : list Z :=
  match k with
  | O => []
  | S k' => Z.shiftr n (8 * Z.of_nat k') mod 256 :: be_bytes k' n
  end.

(** The message, a single 1 bit, zeros up to 56 modulo 64 bytes, and the
    length in bits on 8 bytes. *)
Definition pad (msg : list Z) : list Z :=
  let len := Z.of_nat (List.length msg) in
  msg ++ [0x80] ++ repeat 0 (Z.to_nat ((55 - len) mod 64))
      ++ be_bytes 8 (8 * len).

Fixpoint words (bs : list Z) : list Z :=
  match bs with
  | b0 :: b1 :: b2 :: b3 :: rest =>
      (b0 * 2 ^ 24 + b1 * 2 ^ 16 + b2 * 2 ^ 8 + b3) :: words rest
  | _ => []
  end.

(** One round, on the constant [k] and the schedule word [w]. *)
Definition round (k w : Z) (r : regs) : regs :=
  let '(a, b, c, d, e, f, g, h) := r in
  let t1 := add32 (add32 (add32 (add32 h (Sigma1 e)) (Ch e f g)) k) w in
  let t2 := add32 (Sigma0 a) (Maj a b c) in
  (add32 t1 t2, a, b, c, add32 d t1, e, f, g).

(** The schedule as a window of the sixteen latest words: the window
    moves by one word per round. *)
Definition slide (win : list Z) : list Z :=
  tl win ++
  [ add32 (add32 (add32 (sigma1 (nth 14 win 0)) (nth 9 win 0))
                 (sigma0 (nth 1 win 0)))
          (nth 0 win 0) ].

Fixpoint rounds (ks : list Z) (win : list Z) (r : regs) : regs :=
  match ks with
  | [] => r
  | k :: ks' => rounds ks' (slide win) (round k (nth 0 win 0) r)
  end.

Definition compress (block : list Z) (r : regs) : regs :=
  let '(a, b, c, d, e, f, g, h) := r in
  let '(a', b', c', d', e', f', g', h') := rounds K block r in
  (add32 a a', add32 b b', add32 c c', add32 d d',
   add32 e e', add32 f f', add32 g g', add32 h h').

(** All blocks of sixteen words in turn; [n] bounds their number. *)
Fixpoint blocks (n : nat) (ws : list Z) (r : regs) : regs :=
  match n, ws with
  | S n', _ :: _ => blocks n' (skipn 16 ws) (compress (firstn 16 ws) r)
  | _, _ => r
  end.

Definition digest (msg : list Z) : regs :=
  let ws := words (pad msg) in blocks (List.length ws) ws H0.

Definition hex_digit (n : Z) : ascii :=
  if n <? 10 then ascii_of_nat (Z.to_nat (48 + n))
  else ascii_of_nat (Z.to_nat (87 + n)).

Fixpoint hex (k : nat) (n : Z) : string :=
  match k with
  | O => ""
  | S k' => String (hex_digit (Z.shiftr n (4 * Z.of_nat k') mod 16)) (hex k' n)
  end.

(** [hashlib.sha256(data).hexdigest()] *)
Definition hexdigest (msg : list Z) : string :=
  let '(a, b, c, d, e, f, g, h) := digest msg in
  hex 8 a ++ hex 8 b ++ hex 8 c ++ hex 8 d
    ++ hex 8 e ++ hex 8 f ++ hex 8 g ++ hex 8 h.

End Sha256.

(* ================================================================== *)
(** ** JSON documents and the Python operations on them *)
(* ================================================================== *)

Module Py.

(** What [json.load] returns and [json.dump] accepts. *)
Inductive json :=
| JNull
| JBool (b : bool)
| JInt (n : Z)
| JFloat (x : float)
| JStr (s : string)
| JList (l : list json)
| JDict (d : list (string * json)).

Inductive exn :=
| KeyError
| TypeError
| AttributeError
| OSError
| JSONDecodeError
| UnicodeEncodeError.

Inductive result (A : Type) :=
| Ok (a : A)
| Raise (e : exn).
Arguments Ok {A} a.
Arguments Raise {A} e.

(** [j == s] for a string [s]: only an equal string is equal to it. *)
Definition eq_str (j : json) (s : string) : bool :=
  match j with
  | JStr t => String.eqb t s
  | _ => false
  end.

(** [x in j] for a string [x]: a key of a dict, an element of a list, a
    substring of a string; the other values are not containers. *)
Definition contains (x : string) (j : json) : result bool :=
  match j with
  | JDict d => Ok (PyDict.mem x d)
  | JList l => Ok (existsb (fun e => eq_str e x) l)
  | JStr s => Ok (PyStr.contains x s)
  | _ => Raise TypeError
  end.

(** [j[key]] for a string [key] *)
Definition getitem (j : json) (key : string) : result json :=
  match j with
  | JDict d =>
      match PyDict.lookup key d with
      | Some v => Ok v
      | None => Raise KeyError
      end
  | _ => Raise TypeError
  end.

(** [j[key] = v] for a string [key] *)
Definition setitem (j : json) (key : string) (v : json) : result json :=
  match j with
  | JDict d => Ok (JDict (PyDict.set key v d))
  | _ => Raise TypeError
  end.

(** [j.get(key, default)] *)
Definition get (j : json) (key : string) (default : json) : result json :=
  match j with
  | JDict d => Ok (PyDict.get key d default)
  | _ => Raise AttributeError
  end.

(** [j.insert(0, v)] *)
Definition insert0 (j : json) (v : json) : result json :=
  match j with
  | JList l => Ok (JList (v :: l))
  | _ => Raise AttributeError
  end.

(** The characters of a string, each as a string. *)
Fixpoint chars (s : string) : list json :=
  match s with
  | "" => []
  | String c s' => JStr (String c "") :: chars s'
  end.

(** What [for i in j] runs over. *)
Definition iter (j : json) : result (list json) :=
  match j with
  | JList l => Ok l
  | JDict d => Ok (map JStr (PyDict.keys d))
  | JStr s => Ok (chars s)
  | _ => Raise TypeError
  end.

(** [j in d] for a dict [d] with string keys: [j] is hashed first, which
    a list or a dict refuses; a value that is not a string is no key. *)
Definition key_in {V : Type} (j : json) (d : list (string * V))
    : result bool :=
  match j with
  | JStr s => Ok (PyDict.mem s d)
  | JList _ | JDict _ => Raise TypeError
  | _ => Ok false
  end.

End Py.

(* ================================================================== *)
(** ** DataManager *)
(* ================================================================== *)

Module DataManager.
Import Py.

(** The file [DATA_FILE]: absent, present with a content that
    [json.load] rejects, or present with a document. *)
Inductive file_state :=
| Missing
| Unparseable
| Holds (doc : json).

(** The environment of the data manager: the store file, the date that
    [datetime.datetime.now().strftime("%Y-%m-%d")] gives, and the strings
    of the successive [uuid.uuid4()], [drawn] of them used so far. *)
Record world := World {
  file : file_state;
  today : string;
  uuid4 : nat -> string;
  drawn : nat
}.

Definition with_file (f : file_state) (w : world) : world :=
  {| file := f; today := today w; uuid4 := uuid4 w; drawn := drawn w |}.

(** A method: from a world to an outcome and the world left behind. *)
Definition M (A : Type) : Type := world -> result A * world.

Definition ret {A : Type} (a : A) : M A := fun w => (Ok a, w).

Definition bind {A B : Type} (c : M A) (k : A -> M B) : M B :=
  fun w =>
    match c w with
    | (Ok a, w') => k a w'
    | (Raise e, w') => (Raise e, w')
    end.

Definition lift {A : Type} (r : result A) : M A := fun w => (r, w).

(** [try: body  except: handler], with a bare [except]. *)
Definition try_except {A : Type} (body handler : M A) : M A :=
  fun w =>
    match body w with
    | (Ok a, w') => (Ok a, w')
    | (Raise _, w') => handler w'
    end.

Notation "x <- c ;; k" := (bind c (fun x => k))
  (at level 61, c at next level, right associativity).
Notation "c ;; k" := (bind c (fun _ => k))
  (at level 61, right associativity).

(** [os.path.exists(self.filepath)] *)
Definition path_exists : M bool :=
  fun w =>
    match file w with
    | Missing => (Ok false, w)
    | _ => (Ok true, w)
    end.

(** [with open(self.filepath, 'r') as f: return json.load(f)] *)
Definition read_json : M json :=
  fun w =>
    match file w with
    | Missing => (Raise OSError, w)
    | Unparseable => (Raise JSONDecodeError, w)
    | Holds doc => (Ok doc, w)
    end.

(** [with open(self.filepath, 'w') as f: json.dump(data, f, indent=4)];
    the disk takes the write.  The write that the disk may refuse is
    [Faults.write_json]. *)
Definition write_json (data : json) : M unit :=
  fun w => (Ok tt, with_file (Holds data) w).

(** [str(uuid.uuid4())] *)
Definition uuid4_str : M string :=
  fun w =>
    (Ok (uuid4 w (drawn w)),
     {| file := file w; today := today w; uuid4 := uuid4 w;
        drawn := S (drawn w) |}).

(** [datetime.datetime.now().strftime("%Y-%m-%d")] *)
Definition strftime_date : M string := fun w => (Ok (today w), w).

(** [{"users": {}}] *)
Definition empty_store : json := JDict [("users", JDict [])].

Definition _load : M json := try_except read_json (ret empty_store).

(** A failure to write is printed and otherwise ignored. *)
Definition _save (data : json) : M unit :=
  try_except (write_json data) (ret tt).

Definition _hash (text : string) : string :=
  Sha256.hexdigest (Sha256.bytes_of text).

(** [db["users"]] is an object that [db] holds: what is stored through
    it is stored in [db], which the last [setitem] writes out. *)
Definition register_user (u p : string) : M (bool * string) :=
  db <- _load ;;
  users <- lift (getitem db "users") ;;
  taken <- lift (contains u users) ;;
  if taken then ret (false, "Username taken")
  else
    users' <- lift (setitem users u
                      (JDict [("password", JStr (_hash p));
                              ("history", JList []);
                              ("inventory", JList [])])) ;;
    db' <- lift (setitem db "users" users') ;;
    _save db' ;;
    ret (true, "Success").

Definition verify_user (u p : string) : M bool :=
  db <- _load ;;
  users <- lift (get db "users" (JDict [])) ;;
  present <- lift (contains u users) ;;
  if present then
    record <- lift (getitem users u) ;;
    password <- lift (getitem record "password") ;;
    ret (eq_str password (_hash p))
  else ret false.

Definition _ensure_db : M unit :=
  present <- path_exists ;;
  if negb present then
    _save empty_store ;;
    register_user "admin" "admin" ;;
    ret tt
  else
    try_except
      (data <- _load ;;
       has_users <- lift (contains "users" data) ;;
       if negb has_users then
         has_admin <- lift (contains "admin" data) ;;
         if has_admin then _save (JDict [("users", data)])
         else _save empty_store
       else ret tt)
      (_save empty_store ;;
       register_user "admin" "admin" ;;
       ret tt).

(** The item is built, identifier and date included, before the
    inventory is reached. *)
Definition add_item (user : string) (name category qty notes : json)
    : M unit :=
  db <- _load ;;
  users <- lift (getitem db "users") ;;
  present <- lift (contains user users) ;;
  if present then
    id <- uuid4_str ;;
    date <- strftime_date ;;
    let item := JDict [("id", JStr (PyStr.take 8 id));
                       ("name", name);
                       ("category", category);
                       ("qty", qty);
                       ("notes", notes);
                       ("date", JStr date)] in
    record <- lift (getitem users user) ;;
    inventory <- lift (getitem record "inventory") ;;
    inventory' <- lift (insert0 inventory item) ;;
    record' <- lift (setitem record "inventory" inventory') ;;
    users' <- lift (setitem users user record') ;;
    db' <- lift (setitem db "users" users') ;;
    _save db'
  else ret tt.

Definition get_inventory (user : string) : M json :=
  db <- _load ;;
  users <- lift (get db "users" (JDict [])) ;;
  record <- lift (get users user (JDict [])) ;;
  lift (get record "inventory" (JList [])).

(** [stats[key] += 1] *)
Definition incr (key : string) (stats : list (string * Z))
    : list (string * Z) :=
  PyDict.set key (PyDict.get key stats 0 + 1) stats.

(** [stats[cat] += 1] for a value [cat] found to be a key of [stats]. *)
Definition incr_at (cat : json) (stats : list (string * Z))
    : result (list (string * Z)) :=
  match cat with
  | JStr c => Ok (incr c stats)
  | JList _ | JDict _ => Raise TypeError
  | _ => Raise KeyError
  end.

(** The loop of [get_stats] over the items of the inventory. *)
Fixpoint tally (items : list json) (stats : list (string * Z))
    : result (list (string * Z)) :=
  match items with
  | [] => Ok stats
  | i :: items' =>
      match get i "category" (JStr "Other") with
      | Raise e => Raise e
      | Ok cat =>
          match key_in cat stats with
          | Raise e => Raise e
          | Ok true =>
              match incr_at cat stats with
              | Raise e => Raise e
              | Ok stats' => tally items' stats'
              end
          | Ok false => tally items' (incr "Other" stats)
          end
      end
  end.

Definition get_stats (user : string) : M (list (string * Z)) :=
  inv <- get_inventory user ;;
  items <- lift (iter inv) ;;
  lift (tally items [("Plant", 0); ("Seed", 0); ("Tool", 0); ("Other", 0)]).

(** [[i for i in inv if i["id"] != item_id]], the items taken in
    order. *)
Fixpoint without_id (item_id : string) (items : list json)
    : result (list json) :=
  match items with
  | [] => Ok []
  | i :: items' =>
      match getitem i "id" with
      | Raise e => Raise e
      | Ok v =>
          match without_id item_id items' with
          | Raise e => Raise e
          | Ok kept => Ok (if eq_str v item_id then kept else i :: kept)
          end
      end
  end.

Definition delete_item (user item_id : string) : M unit :=
  db <- _load ;;
  users <- lift (getitem db "users") ;;
  present <- lift (contains user users) ;;
  if present then
    record <- lift (getitem users user) ;;
    inv <- lift (getitem record "inventory") ;;
    items <- lift (iter inv) ;;
    kept <- lift (without_id item_id items) ;;
    record' <- lift (setitem record "inventory" (JList kept)) ;;
    users' <- lift (setitem users user record') ;;
    db' <- lift (setitem db "users" users') ;;
    _save db'
  else ret tt.

(** [hhmm] is the time of day that [strftime("%H:%M")] gives at the
    call: the entry is dated [strftime("%Y-%m-%d %H:%M")]. *)
Definition log_scan (hhmm : string) (user img_path : string) (report : json)
    : M unit :=
  db <- _load ;;
  users <- lift (getitem db "users") ;;
  present <- lift (contains user users) ;;
  if present then
    date <- strftime_date ;;
    result <- lift (getitem report "title") ;;
    status <- lift (getitem report "status") ;;
    let entry := JDict [("date", JStr (date ++ " " ++ hhmm));
                        ("file", JStr (PyStr.basename img_path));
                        ("result", result);
                        ("status", status)] in
    record <- lift (getitem users user) ;;
    history <- lift (getitem record "history") ;;
    history' <- lift (insert0 history entry) ;;
    record' <- lift (setitem record "history" history') ;;
    users' <- lift (setitem users user record') ;;
    db' <- lift (setitem db "users" users') ;;
    _save db'
  else ret tt.

Definition get_history (user : string) : M json :=
  db <- _load ;;
  users <- lift (get db "users" (JDict [])) ;;
  record <- lift (get users user (JDict [])) ;;
  lift (get record "history" (JList [])).

End DataManager.

(* ================================================================== *)
(** ** DataManager on a disk that may refuse and a console that may not
       print *)
(* ================================================================== *)

(** [DataManager] above is the data manager where every write is taken
    and every message printed.  Here are the methods that write or
    print, with the two faults that the source guards against: the disk
    refuses the write ([open] raises and the file is left as it was), and
    the encoding of the console lacks a character of a message ([print]
    raises). *)
Module Faults.
Import Py DataManager.

Section Environment.

(** The text of the error that the disk raises at every write, [None]
    when it takes the writes. *)
Variable refusal : option string.

(** The messages that the console can print. *)
Variable can_print : string -> bool.

(** [print(msg)] *)
Definition print (msg : string) : M unit :=
  lift (if can_print msg then Ok tt else Raise UnicodeEncodeError).

(** [with open(self.filepath, 'w') as f: json.dump(data, f, indent=4)] *)
Definition write_json (data : json) : M unit :=
  fun w =>
    match refusal with
    | None => (Ok tt, with_file (Holds data) w)
    | Some _ => (Raise OSError, w)
    end.

(** [except Exception as e: print(f"DB Save Error: {e}")] *)
Definition _save (data : json) : M unit :=
  try_except (write_json data)
    (print ("DB Save Error: "
              ++ match refusal with Some e => e | None => "" end)).

Definition register_user (u p : string) : M (bool * string) :=
  db <- _load ;;
  users <- lift (getitem db "users") ;;
  taken <- lift (contains u users) ;;
  if taken then ret (false, "Username taken")
  else
    users' <- lift (setitem users u
                      (JDict [("password", JStr (_hash p));
                              ("history", JList []);
                              ("inventory", JList [])])) ;;
    db' <- lift (setitem db "users" users') ;;
    _save db' ;;
    ret (true, "Success").

Definition repairing : string := "⚠️ Repairing database structure...".

Definition resetting : string := "⚠️ Database corrupt. Resetting...".

Definition _ensure_db : M unit :=
  present <- path_exists ;;
  if negb present then
    _save empty_store ;;
    register_user "admin" "admin" ;;
    ret tt
  else
    try_except
      (data <- _load ;;
       has_users <- lift (contains "users" data) ;;
       if negb has_users then
         print repairing ;;
         has_admin <- lift (contains "admin" data) ;;
         if has_admin then _save (JDict [("users", data)])
         else _save empty_store
       else ret tt)
      (print resetting ;;
       _save empty_store ;;
       register_user "admin" "admin" ;;
       ret tt).

End Environment.

End Faults.

(* ================================================================== *)
(** ** App: the login and registration handlers *)
(* ================================================================== *)

Module App.
Import Py DataManager.

(** What a handler does to the screen: a message box, or another view. *)
Inductive event :=
| ShowInfo (title message : string)
| ShowError (title message : string)
| ShowLogin
| Dashboard.

(** The field [self.user]; [None] until a login succeeds. *)
Record app := { user : option string }.

(** The dict that [KnowledgeBase.generate_report] returns. *)
Definition report_dict (r : KnowledgeBase.report) : json :=
  JDict [("title", JStr (KnowledgeBase.title r));
         ("status", JStr (KnowledgeBase.status r));
         ("details", JStr (KnowledgeBase.details r))].

(** [bool(t)] for a tuple of two elements. *)
Definition truth_of_pair {A B : Type} (t : A * B) : bool := true.

(** [u_ent] and [p_ent] are the texts of the two entries. *)
Definition login (u_ent p_ent : string) (a : app) : M (app * list event) :=
  ok <- verify_user u_ent p_ent ;;
  if ok then ret ({| user := Some u_ent |}, [Dashboard])
  else ret (a, [ShowError "Error" "Invalid Login"]).

Definition register (ru rp : string) (a : app) : M (app * list event) :=
  r <- register_user ru rp ;;
  if truth_of_pair r
  then ret (a, [ShowInfo "Success" "Registered!"; ShowLogin])
  else ret (a, [ShowError "Error" "Username taken"]).

End App.

(* ================================================================== *)
(** ** The vocabulary of the specification *)
(* ================================================================== *)

Module Spec.
Import PyStr.

(** [needle] is a substring of [hay]. *)
Definition occurs (needle hay : string) : Prop :=
  exists u v, hay = u ++ needle ++ v.

(** The capital letters and the small letters, in the order of the
    alphabet. *)
Definition capitals : string := "ABCDEFGHIJKLMNOPQRSTUVWXYZ".
Definition smalls : string := "abcdefghijklmnopqrstuvwxyz".

(** [a] and [b] are the capital and the small form of one letter. *)
Definition letter_pair (a b : ascii) : bool :=
  existsb (fun p => Ascii.eqb a (fst p) && Ascii.eqb b (snd p))
    (combine (list_ascii_of_string capitals) (list_ascii_of_string smalls)).

(** The two characters are equal when case is ignored: the same
    character, or the two forms of one letter. *)
Definition same_letter (a b : ascii) : bool :=
  Ascii.eqb a b || letter_pair a b || letter_pair b a.

(** The two texts are equal when case is ignored. *)
Fixpoint same_text (s t : string) : bool :=
  match s, t with
  | "", "" => true
  | String a s', String b t' => same_letter a b && same_text s' t'
  | _, _ => false
  end.

(** Every character there is. *)
Definition all_ascii : list ascii := map ascii_of_nat (seq 0 256).

(** [needle] is a substring of [hay] when case is ignored: some part of
    [hay] is [needle] up to the case of its letters. *)
Definition occurs_nocase (needle hay : string) : Prop :=
  exists u t v, hay = u ++ t ++ v /\ same_text t needle = true.

(** The character [c] is one of the characters of [s]. *)
Fixpoint has_char (c : ascii) (s : string) : bool :=
  match s with
  | "" => false
  | String c' s' => Ascii.eqb c' c || has_char c s'
  end.

(** Every character of [s] is white space. *)
Fixpoint all_space (s : string) : bool :=
  match s with
  | "" => true
  | String c s' => isspace c && all_space s'
  end.

(** [s] begins, or ends, with a white space character. *)
Definition starts_with_space (s : string) : bool :=
  match s with
  | "" => false
  | String c _ => isspace c
  end.

Fixpoint ends_with_space (s : string) : bool :=
  match s with
  | "" => false
  | String c "" => isspace c
  | String _ s' => ends_with_space s'
  end.

(** The document that a read of the store gives: the one of the file,
    or the empty store when there is no file or none that parses. *)
Definition stored (w : DataManager.world) : Py.json :=
  match DataManager.file w with
  | DataManager.Holds doc => doc
  | _ => DataManager.empty_store
  end.

(** The record of a user who has just registered with password [p]. *)
Definition fresh_record (p : string) : Py.json :=
  Py.JDict [("password", Py.JStr (DataManager._hash p));
            ("history", Py.JList []);
            ("inventory", Py.JList [])].

(** How many entries of a dict have the key [k]. *)
Definition key_count {V : Type} (k : string) (d : list (string * V)) : nat :=
  List.length (filter (String.eqb k) (PyDict.keys d)).

(** The category of an inventory item, ["Other"] when it has none. *)
Definition category_of (i : Py.json) : Py.json :=
  match i with
  | Py.JDict d => PyDict.get "category" d (Py.JStr "Other")
  | _ => Py.JNull
  end.

(** An inventory item: a dict whose category is not a list or a dict. *)
Definition is_item (i : Py.json) : bool :=
  match i with
  | Py.JDict d =>
      match PyDict.get "category" d (Py.JStr "Other") with
      | Py.JList _ | Py.JDict _ => false
      | _ => true
      end
  | _ => false
  end.

(** How many of the items have the category [c]. *)
Definition count_category (c : string) (items : list Py.json) : Z :=
  Z.of_nat (List.length (filter (fun i => Py.eq_str (category_of i) c) items)).

(** The repair of a store that lacks the key "users", in the words of
    the specification: a document with the key "admin" is put under an
    "admin" entry of the users, any other document gives way to the
    empty users mapping. *)
Definition repair_as_stated (doc : Py.json) : Py.json :=
  match doc with
  | Py.JDict d =>
      if PyDict.mem "admin" d
      then Py.JDict [("users", Py.JDict [("admin", doc)])]
      else DataManager.empty_store
  | _ => DataManager.empty_store
  end.

(** How many of the items have a category other than Plant, Seed and
    Tool. *)
Definition count_other (items : list Py.json) : Z :=
  Z.of_nat (List.length items) - count_category "Plant" items
  - count_category "Seed" items - count_category "Tool" items.

(** The item has the identifier [item_id]. *)
Definition id_is (item_id : string) (i : Py.json) : bool :=
  match i with
  | Py.JDict d =>
      match PyDict.lookup "id" d with
      | Some v => Py.eq_str v item_id
      | None => false
      end
  | _ => false
  end.

(** The item is a dict with an identifier. *)
Definition has_id (i : Py.json) : bool :=
  match i with
  | Py.JDict d => PyDict.mem "id" d
  | _ => false
  end.

(** A record as [register_user] makes it and the other methods keep it:
    a password that is a string, a history that is a list, an inventory
    that is a list of items with an identifier. *)
Definition wf_record (r : Py.json) : bool :=
  match r with
  | Py.JDict d =>
      match PyDict.lookup "password" d, PyDict.lookup "history" d,
            PyDict.lookup "inventory" d with
      | Some (Py.JStr _), Some (Py.JList _), Some (Py.JList items) =>
          forallb has_id items
      | _, _, _ => false
      end
  | _ => false
  end.

(** A store whose users are a dict of such records. *)
Definition wf_store (doc : Py.json) : bool :=
  match doc with
  | Py.JDict db =>
      match PyDict.lookup "users" db with
      | Some (Py.JDict users) => forallb (fun kv => wf_record (snd kv)) users
      | _ => false
      end
  | _ => false
  end.

(** The character is a digit or one of the letters a to f. *)
Definition is_hex (c : ascii) : bool :=
  let n := nat_of_ascii c in
  ((48 <=? n) && (n <=? 57) || (97 <=? n) && (n <=? 102))%nat.

Fixpoint all_hex (s : string) : bool :=
  match s with
  | "" => true
  | String c s' => is_hex c && all_hex s'
  end.

(** A world to run examples in. *)
Definition sample_world (f : DataManager.file_state) : DataManager.world :=
  {| DataManager.file := f;
     DataManager.today := "2026-11-03";
     DataManager.uuid4 :=
       fun n => Sha256.hex 8 (0x3f2b8c1e + Z.of_nat n)
                  ++ "-9a47-4d2e-8b1a-5c6d7e8f9a0b";
     DataManager.drawn := 0 |}.

(** A store of the old, flat format: the users at the top. *)
Definition legacy_doc : Py.json := Py.JDict [("admin", fresh_record "admin")].

(** The store after its creation: the administrator alone. *)
Definition fresh_store : Py.json :=
  Py.JDict [("users", Py.JDict [("admin", fresh_record "admin")])].

(** An inventory item of the category [c]. *)
Definition sample_item (c : string) : Py.json :=
  Py.JDict [("id", Py.JStr "3f2b8c1e");
            ("name", Py.JStr "item");
            ("category", Py.JStr c);
            ("qty", Py.JStr "1");
            ("notes", Py.JStr "");
            ("date", Py.JStr "2026-11-03")].

Definition sample_items : list Py.json :=
  map sample_item ["Plant"; "Seed"; "Tool"; "Fertilizer"].

(** A store where "alice" has one item of each category that the
    interface offers. *)
Definition sample_store : Py.json :=
  Py.JDict
    [("users",
      Py.JDict
        [("alice",
          Py.JDict [("password", Py.JStr (DataManager._hash "x"));
                    ("history", Py.JList []);
                    ("inventory", Py.JList sample_items)])])].

End Spec.

(* ================================================================== *)
(** ** What the methods do to the stored document *)
(* ================================================================== *)

Module Effects.
Import Py DataManager Spec.

(** What [_ensure_db] leaves in the file, for a store that parses. *)
Definition repaired (doc : json) : option json :=
  match contains "users" doc with
  | Ok true => None
  | Ok false =>
      match contains "admin" doc with
      | Ok true => Some (JDict [("users", doc)])
      | _ => Some empty_store
      end
  | Raise _ => Some fresh_store
  end.

(** The store [db] with the field [key] of the record of [user] set to
    [v]. *)
Definition update_field (user key : string) (v : json)
    (db users record : list (string * json)) : json :=
  JDict (PyDict.set "users"
           (JDict (PyDict.set user (JDict (PyDict.set key v record)) users))
           db).

(** The world after one identifier has been drawn. *)
Definition after_draw (w : world) : world :=
  {| file := file w; today := today w; uuid4 := uuid4 w;
     drawn := S (drawn w) |}.

(** The item that [add_item] makes in the world [w]. *)
Definition new_item (w : world) (name category qty notes : json) : json :=
  JDict [("id", JStr (PyStr.take 8 (uuid4 w (drawn w))));
         ("name", name);
         ("category", category);
         ("qty", qty);
         ("notes", notes);
         ("date", JStr (today w))].

(** The entry that [log_scan] makes in the world [w]. *)
Definition new_entry (w : world) (hhmm img_path : string)
    (result status : json) : json :=
  JDict [("date", JStr (today w ++ " " ++ hhmm));
         ("file", JStr (PyStr.basename img_path));
         ("result", result);
         ("status", status)].

(** [verify_user] as a function of the document read. *)
Definition check_password (u p : string) (doc : json) : result bool :=
  match get doc "users" (JDict []) with
  | Raise e => Raise e
  | Ok users =>
      match contains u users with
      | Raise e => Raise e
      | Ok false => Ok false
      | Ok true =>
          match getitem users u with
          | Raise e => Raise e
          | Ok record =>
              match getitem record "password" with
              | Raise e => Raise e
              | Ok pw => Ok (eq_str pw (_hash p))
              end
          end
      end
  end.

(** [get_inventory] and [get_history] as a function of the document
    read, [field] being "inventory" or "history". *)
Definition read_list (field user : string) (doc : json) : result json :=
  match get doc "users" (JDict []) with
  | Raise e => Raise e
  | Ok users =>
      match get users user (JDict []) with
      | Raise e => Raise e
      | Ok record => get record field (JList [])
      end
  end.

(** What a method that writes one field of one record does to the
    document: nothing, or that field of that record set. *)
Definition field_effect (user key : string) (before after : json) : Prop :=
  after = before
  \/ exists db users record v,
       before = JDict db
       /\ PyDict.lookup "users" db = Some (JDict users)
       /\ PyDict.lookup user users = Some (JDict record)
       /\ after = update_field user key v db users record.

(** What [register_user] does to the document: nothing, or the record
    of the new user set. *)
Definition register_effect (u p : string) (before after : json) : Prop :=
  after = before
  \/ exists db users,
       before = JDict db
       /\ PyDict.lookup "users" db = Some (JDict users)
       /\ after = JDict (PyDict.set "users"
                           (JDict (PyDict.set u (fresh_record p) users)) db).

(** An inventory item with the identifier [id] and the category [c]. *)
Definition item_with (id c : string) : json :=
  JDict [("id", JStr id);
         ("name", JStr "item");
         ("category", JStr c);
         ("qty", JStr "1");
         ("notes", JStr "");
         ("date", JStr "2026-11-03")].

Definition alice_items : list json :=
  [item_with "aaaa1111" "Plant"; item_with "bbbb2222" "Tool"].

Definition alice_history : list json :=
  [JDict [("date", JStr "2026-11-02 09:15");
          ("file", JStr "leaf.jpg");
          ("result", JStr "✅ healthy");
          ("status", JStr "Healthy")]].

Definition alice_record : list (string * json) :=
  [("password", JStr (_hash "x"));
   ("history", JList alice_history);
   ("inventory", JList alice_items)].

Definition two_users : list (string * json) :=
  [("admin", fresh_record "admin"); ("alice", JDict alice_record)].

(** A store with the administrator and "alice", who has two items and
    one scan. *)
Definition two_users_store : json := JDict [("users", JDict two_users)].

End Effects.

(* ================================================================== *)
(** ** Strings: what [in], [lower], [strip] and [replace] do *)
(* ================================================================== *)

Section StringFacts.
Import PyStr Spec.

Lemma prefix_spec (n h : string) :
  prefix n h = true <-> exists v, h = n ++ v.
Proof.
  revert h. induction n as [|c n IH]; intros h.
  - split; [intros _; exists h; reflexivity | intros _; destruct h; reflexivity].
  - destruct h as [|c' h]; simpl.
    + split; [discriminate | intros [v Hv]; discriminate].
    + destruct (ascii_dec c c') as [->|Hne].
      * rewrite IH. split; intros [v Hv]; exists v.
        -- now rewrite Hv.
        -- now inversion Hv.
      * split; [discriminate | intros [v Hv]; injection Hv as Hc _; congruence].
Qed.

Lemma contains_step (n : string) (c : ascii) (h : string) :
  contains n (String c h) = if prefix n (String c h) then true else contains n h.
Proof. reflexivity. Qed.

Lemma contains_spec (n h : string) :
  contains n h = true <-> occurs n h.
Proof.
  unfold occurs. split.
  - induction h as [|c h IH].
    + change (contains n "") with (if prefix n "" then true else false).
      destruct (prefix n "") eqn:E; [|discriminate].
      intros _. apply prefix_spec in E. destruct E as [v Hv].
      exists "", v. exact Hv.
    + rewrite contains_step. destruct (prefix n (String c h)) eqn:E.
      * intros _. apply prefix_spec in E. destruct E as [v Hv].
        exists "", v. exact Hv.
      * intros H. destruct (IH H) as (u & v & Hv).
        exists (String c u), v. simpl. now rewrite Hv.
  - intros (u & v & ->). induction u as [|c u IH].
    + change ("" ++ n ++ v) with (n ++ v).
      assert (E : prefix n (n ++ v) = true) by (apply prefix_spec; now exists v).
      destruct (n ++ v) as [|c h];
        [change (contains n "") with (if prefix n "" then true else false)
        | rewrite contains_step]; now rewrite E.
    + change (String c u ++ n ++ v) with (String c (u ++ n ++ v)).
      rewrite contains_step, IH. now destruct (prefix _ _).
Qed.

Lemma contains_false (n h : string) :
  contains n h = false <-> ~ occurs n h.
Proof.
  rewrite <- contains_spec. destruct (contains n h); split; congruence.
Qed.

Lemma lower_app (a b : string) : lower (a ++ b) = lower a ++ lower b.
Proof. induction a as [|c a IH]; simpl; [reflexivity | now rewrite IH]. Qed.

Lemma lower_split (s a b : string) :
  lower s = a ++ b -> exists s1 s2, s = s1 ++ s2 /\ lower s1 = a /\ lower s2 = b.
Proof.
  revert s. induction a as [|c a IH]; intros s H.
  - exists "", s. auto.
  - destruct s as [|c' s]; [discriminate|]. simpl in H. inversion H as [[Hc Hs]].
    destruct (IH s Hs) as (s1 & s2 & -> & <- & <-).
    exists (String c' s1), s2. auto.
Qed.

(** [lower] takes a capital to its small letter and leaves every other
    character alone: two texts have the same lowered form exactly when
    they are equal up to the case of their letters. *)
Lemma in_all_ascii (a : ascii) : In a all_ascii.
Proof.
  unfold all_ascii. rewrite <- (ascii_nat_embedding a).
  apply in_map, in_seq. pose proof (nat_ascii_bounded a). lia.
Qed.

Lemma same_letter_lower (a b : ascii) :
  same_letter a b = Ascii.eqb (lower_char a) (lower_char b).
Proof.
  assert (H : forallb (fun x => forallb (fun y =>
                Bool.eqb (same_letter x y)
                  (Ascii.eqb (lower_char x) (lower_char y))) all_ascii)
                all_ascii = true) by (vm_compute; reflexivity).
  rewrite forallb_forall in H. specialize (H a (in_all_ascii a)).
  rewrite forallb_forall in H. specialize (H b (in_all_ascii b)).
  now apply Bool.eqb_prop.
Qed.

Lemma same_text_lower (s t : string) :
  same_text s t = true <-> lower s = lower t.
Proof.
  revert t. induction s as [|a s IH]; intros [|b t]; simpl;
    try (split; [discriminate | intros H; discriminate H]);
    [split; reflexivity|].
  rewrite same_letter_lower, andb_true_iff, IH, Ascii.eqb_eq.
  split; [intros [-> ->]; reflexivity | intros [= -> ->]; auto].
Qed.

(** Searching the lowered text for [k] is searching the text for [k]
    with case ignored, as far as [k] has no capital. *)
Lemma occurs_lower (k s : string) :
  lower k = k -> (occurs k (lower s) <-> occurs_nocase k s).
Proof.
  intros Hk. split.
  - intros (a & b & H).
    destruct (lower_split _ _ _ H) as (u & r & -> & <- & Hr).
    destruct (lower_split _ _ _ Hr) as (t & v & -> & Ht & <-).
    exists u, t, v. split; [reflexivity|].
    apply same_text_lower. now rewrite Hk.
  - intros (u & t & v & -> & Ht). apply same_text_lower in Ht.
    exists (lower u), (lower v).
    now rewrite !lower_app, Ht, Hk.
Qed.

Lemma has_char_app (c : ascii) (a b : string) :
  has_char c (a ++ b) = has_char c a || has_char c b.
Proof.
  induction a as [|c' a IH]; simpl; [reflexivity|].
  now rewrite IH, orb_assoc.
Qed.

Lemma has_char_occurs (c : ascii) (n h : string) :
  occurs n h -> has_char c n = true -> has_char c h = true.
Proof.
  intros (u & v & ->) H. rewrite !has_char_app, H.
  now rewrite orb_true_r.
Qed.

Lemma has_char_lstrip (c : ascii) (s : string) :
  has_char c (lstrip s) = true -> has_char c s = true.
Proof.
  induction s as [|c' s IH]; simpl; [discriminate|].
  destruct (isspace c'); [|exact (fun H => H)].
  intros H. rewrite (IH H). apply orb_true_r.
Qed.

Lemma has_char_rstrip (c : ascii) (s : string) :
  has_char c (rstrip s) = true -> has_char c s = true.
Proof.
  induction s as [|c' s IH]; simpl; [discriminate|].
  destruct (rstrip s) as [|r0 r] eqn:E.
  - destruct (isspace c'); simpl; [discriminate|].
    rewrite orb_false_r. intros ->. reflexivity.
  - simpl. destruct (Ascii.eqb c' c); [reflexivity|]. exact IH.
Qed.

Lemma has_char_replace (old new : ascii) (s : string) :
  old <> new -> has_char old (replace old new s) = false.
Proof.
  intros Hne. induction s as [|c s IH]; simpl; [reflexivity|].
  rewrite IH, orb_false_r. destruct (Ascii.eqb_spec c old) as [->|Hc].
  - apply Ascii.eqb_neq. congruence.
  - now apply Ascii.eqb_neq.
Qed.

Lemma lower_char_underscore (c : ascii) :
  Ascii.eqb (lower_char c) "_" = Ascii.eqb c "_".
Proof.
  destruct c as [[] [] [] [] [] [] [] []]; reflexivity.
Qed.

Lemma has_underscore_lower (s : string) :
  has_char "_" (lower s) = has_char "_" s.
Proof.
  induction s as [|c s IH]; simpl; [reflexivity|].
  now rewrite IH, lower_char_underscore.
Qed.

(** What [strip] removes is white space, and all of it at both ends. *)
Lemma lstrip_spec (s : string) :
  exists l, s = l ++ lstrip s /\ all_space l = true
            /\ starts_with_space (lstrip s) = false.
Proof.
  induction s as [|c s (l & Hs & Hl & Hn)]; [now exists ""|].
  simpl. destruct (isspace c) eqn:Ec.
  - exists (String c l). simpl. rewrite Ec, Hl. now rewrite <- Hs.
  - exists "". simpl. now rewrite Ec.
Qed.

Lemma rstrip_spec (s : string) :
  exists r, s = rstrip s ++ r /\ all_space r = true
            /\ ends_with_space (rstrip s) = false.
Proof.
  induction s as [|c s (r & Hs & Hr & Hn)]; [now exists ""|].
  simpl. destruct (rstrip s) as [|c' t] eqn:Et.
  - destruct (isspace c) eqn:Ec.
    + exists (String c r). simpl in Hs. subst s. simpl.
      now rewrite Ec, Hr.
    + exists r. simpl in Hs. subst s. simpl. now rewrite Ec, Hr.
  - exists r. split; [now rewrite Hs at 1|]. split; [exact Hr|].
    exact Hn.
Qed.

Lemma rstrip_start (s : string) :
  starts_with_space s = false -> starts_with_space (rstrip s) = false.
Proof.
  destruct s as [|c s]; [reflexivity|]. simpl. intros Hc.
  destruct (rstrip s); [now rewrite Hc | exact Hc].
Qed.

Lemma strip_spec (s : string) :
  exists l r,
    s = l ++ strip s ++ r
    /\ all_space l = true /\ all_space r = true
    /\ starts_with_space (strip s) = false
    /\ ends_with_space (strip s) = false.
Proof.
  destruct (lstrip_spec s) as (l & Hs & Hl & Hn).
  destruct (rstrip_spec (lstrip s)) as (r & Ht & Hr & Hm).
  exists l, r. unfold strip. rewrite <- Ht.
  repeat split; auto using rstrip_start.
Qed.

(** [replace] works character by character. *)
Lemma replace_length (old new : ascii) (s : string) :
  String.length (replace old new s) = String.length s.
Proof. induction s as [|c s IH]; simpl; [reflexivity | now rewrite IH]. Qed.

Lemma replace_get (old new : ascii) (s : string) (i : nat) :
  String.get i (replace old new s) =
  option_map (fun c => if Ascii.eqb c old then new else c) (String.get i s).
Proof.
  revert i. induction s as [|c s IH]; intros i; [reflexivity|].
  destruct i as [|i]; simpl; [reflexivity | apply IH].
Qed.

(** Rounding is to the nearest hundredth of the exact binary value, ties
    to even. *)
Lemma format_2f_examples :
  format_2f 0.125 = "0.12" /\ format_2f 0.135 = "0.14"
  /\ format_2f 93 = "93.00" /\ format_2f (-0.001) = "-0.00"
  /\ format_2f 1234.5678 = "1234.57" /\ format_2f 100 = "100.00".
Proof. vm_compute. repeat split; reflexivity. Qed.

End StringFacts.

(* ================================================================== *)
(** ** KnowledgeBase.generate_report *)
(* ================================================================== *)

Section KnowledgeBaseFacts.
Import PyStr Spec KnowledgeBase.

Lemma find_key_first (pre post : list (string * advice)) (k : string)
    (a : advice) (low : string) :
  contains k low = true ->
  (forall k' a', In (k', a') pre -> contains k' low = false) ->
  find_key (pre ++ (k, a) :: post) low = k
  /\ PyDict.lookup k (pre ++ (k, a) :: post) = Some a.
Proof.
  intros Hk. induction pre as [|[k0 a0] pre IH]; intros Hpre; simpl.
  - now rewrite Hk, String.eqb_refl.
  - assert (H0 : contains k0 low = false) by (apply (Hpre k0 a0); now left).
    rewrite H0. destruct (String.eqb_spec k0 k) as [->|_]; [congruence|].
    apply IH. intros k' a' Hin. apply (Hpre k' a'). now right.
Qed.

Lemma find_key_none (d : list (string * advice)) (low : string) :
  (forall k a, In (k, a) d -> contains k low = false) ->
  find_key d low = "generic".
Proof.
  induction d as [|[k0 a0] d IH]; intros H; simpl; [reflexivity|].
  rewrite (H k0 a0) by now left.
  apply IH. intros k a Hin. apply (H k a). now right.
Qed.

Lemma ADVICE_keys :
  PyDict.keys ADVICE =
  ["bacterial_spot"; "early_blight"; "late_blight"; "powdery_mildew"; "healthy"].
Proof. reflexivity. Qed.

Lemma ADVICE_keys_lower (k : string) :
  In k (PyDict.keys ADVICE) -> lower k = k.
Proof.
  rewrite ADVICE_keys. simpl.
  intros [<-|[<-|[<-|[<-|[<-|[]]]]]]; reflexivity.
Qed.

Lemma in_keys (k : string) (a : advice) (d : list (string * advice)) :
  In (k, a) d -> In k (PyDict.keys d).
Proof. intros H. apply (in_map fst) in H. exact H. Qed.

(** The lowered label holds no underscore. *)
Lemma lowered_label_no_underscore (raw_label : string) :
  has_char "_" (lower (clean_label raw_label)) = false.
Proof.
  rewrite has_underscore_lower. unfold clean_label, strip.
  destruct (has_char "_" (rstrip (lstrip (replace "_" " " raw_label)))) eqn:E;
    [|reflexivity].
  apply has_char_rstrip, has_char_lstrip in E.
  rewrite has_char_replace in E; [discriminate|].
  intros H. discriminate H.
Qed.

Lemma underscored_key_absent (raw_label k : string) :
  has_char "_" k = true -> contains k (lower (clean_label raw_label)) = false.
Proof.
  intros Hk. apply contains_false. intros Hocc.
  pose proof (has_char_occurs _ _ _ Hocc Hk) as H.
  rewrite lowered_label_no_underscore in H. discriminate.
Qed.

(** The key that the loop settles on. *)
Lemma key_match_value (raw_label : string) :
  key_match raw_label = if is_healthy raw_label then "healthy" else "generic".
Proof.
  unfold key_match, is_healthy, ADVICE, find_key.
  rewrite !underscored_key_absent by reflexivity.
  reflexivity.
Qed.

(** C2, on the code: for the label ["Tomato___Late_blight"] and the
    confidence 0.93 the report has the status ["Infected"], a title that
    contains ["Late blight"] and details that contain ["93.00%"], but the
    treatment in the details is the one of the generic advisory, not the
    one of late blight; for ["healthy"] and 0.99 the status is
    ["Healthy"]. *)
Theorem generate_report_late_blight :
  let r := generate_report "Tomato___Late_blight" 0.93 in
  status r = "Infected"
  /\ title r = "⚠️ Tomato   Late blight"
  /\ contains "Late blight" (title r) = true
  /\ contains "93.00%" (details r) = true
  /\ contains "Use fungicides with chlorothalonil/copper immediately."
       (details r) = false
  /\ contains "Isolate plant. Consult local agricultural extension."
       (details r) = true
  /\ info "Tomato___Late_blight" = generic_advice
  /\ status (generate_report "healthy" 0.99) = "Healthy".
Proof. vm_compute. repeat split; reflexivity. Qed.

(** C3: the advisory of the report is found by looking, in the order
    bacterial_spot, early_blight, late_blight, powdery_mildew, healthy of
    the table, for the first key that is a substring, case ignored, of the
    label with its underscores turned to spaces and its ends trimmed; with
    no such key it is the generic advisory. *)
Theorem generate_report_first_match (raw_label : string) (confidence : float) :
  PyDict.keys ADVICE =
    ["bacterial_spot"; "early_blight"; "late_blight"; "powdery_mildew";
     "healthy"]
  /\ clean_label raw_label = strip (replace "_" " " raw_label)
  /\ details (generate_report raw_label confidence) =
       render_details (clean_label raw_label) confidence (info raw_label)
  /\ (forall (pre post : list (string * advice)) (k : string) (a : advice),
        ADVICE = (pre ++ (k, a) :: post)%list ->
        occurs_nocase k (clean_label raw_label) ->
        (forall k' a', In (k', a') pre ->
                       ~ occurs_nocase k' (clean_label raw_label)) ->
        info raw_label = a)
  /\ ((forall k, In k (PyDict.keys ADVICE) ->
                 ~ occurs_nocase k (clean_label raw_label)) ->
      info raw_label = generic_advice).
Proof.
  split; [reflexivity|]. split; [reflexivity|]. split; [reflexivity|]. split.
  - intros pre post k a Hd Hk Hpre.
    assert (Hin : forall k' a', In (k', a') (pre ++ (k, a) :: post) ->
                                lower k' = k').
    { intros k' a' H. apply ADVICE_keys_lower. rewrite Hd.
      exact (in_keys _ _ _ H). }
    unfold info, key_match, PyDict.get. rewrite Hd.
    destruct (find_key_first pre post k a (lower (clean_label raw_label)))
      as [-> ->]; [| |reflexivity].
    + apply contains_spec, occurs_lower; [|exact Hk].
      apply (Hin k a), in_or_app. right. now left.
    + intros k' a' H. apply contains_false. intros Hocc.
      apply (Hpre k' a' H), occurs_lower; [|exact Hocc].
      apply (Hin k' a'), in_or_app. now left.
  - intros Hnone. unfold info, key_match.
    rewrite find_key_none; [reflexivity|].
    intros k a H. apply contains_false. intros Hocc.
    pose proof (in_keys _ _ _ H) as Hk.
    apply (Hnone k Hk), occurs_lower; [|exact Hocc].
    now apply ADVICE_keys_lower.
Qed.

(** C4: the status is ["Healthy"] exactly when ["healthy"] is a
    substring, case ignored, of the label with its underscores turned to
    spaces and its ends trimmed, and ["Infected"] otherwise; the glyph of
    the title goes with the status. *)
Theorem generate_report_status (raw_label : string) (confidence : float) :
  let r := generate_report raw_label confidence in
  clean_label raw_label = strip (replace "_" " " raw_label)
  /\ (status r = "Healthy" <-> occurs_nocase "healthy" (clean_label raw_label))
  /\ (status r = "Infected" <->
      ~ occurs_nocase "healthy" (clean_label raw_label))
  /\ (status r = "Healthy" -> title r = "✅ " ++ clean_label raw_label)
  /\ (status r = "Infected" -> title r = "⚠️ " ++ clean_label raw_label).
Proof.
  assert (Hiff : is_healthy raw_label = true <->
                 occurs_nocase "healthy" (clean_label raw_label)).
  { unfold is_healthy. rewrite contains_spec. now apply occurs_lower. }
  simpl. destruct (is_healthy raw_label).
  - assert (Hocc : occurs_nocase "healthy" (clean_label raw_label))
      by now apply Hiff.
    split; [reflexivity|]. split; [tauto|]. split.
    + split; [discriminate | intros H; contradiction].
    + split; [reflexivity | discriminate].
  - assert (Hocc : ~ occurs_nocase "healthy" (clean_label raw_label)).
    { intros H. apply Hiff in H. discriminate. }
    split; [reflexivity|]. split.
    + split; [discriminate | intros H; contradiction].
    + split; [tauto|]. split; [discriminate | reflexivity].
Qed.

(** C10: the lowered label holds no underscore, so none of the keys
    bacterial_spot, early_blight, late_blight, powdery_mildew occurs in
    it: the advisory of the report is the entry of healthy or the generic
    one, never one of the four others. *)
Theorem generate_report_never_disease_specific
    (raw_label : string) (confidence : float) :
  has_char "_" (lower (clean_label raw_label)) = false
  /\ (forall k, In k ["bacterial_spot"; "early_blight"; "late_blight";
                      "powdery_mildew"] ->
                has_char "_" k = true
                /\ ~ occurs k (lower (clean_label raw_label)))
  /\ details (generate_report raw_label confidence) =
       render_details (clean_label raw_label) confidence (info raw_label)
  /\ (PyDict.lookup "healthy" ADVICE = Some (info raw_label)
      \/ info raw_label = generic_advice)
  /\ (forall k a, In (k, a) ADVICE -> k <> "healthy" -> info raw_label <> a).
Proof.
  split; [apply lowered_label_no_underscore|]. split.
  { intros k Hk.
    assert (Hu : has_char "_" k = true).
    { simpl in Hk. destruct Hk as [<-|[<-|[<-|[<-|[]]]]]; reflexivity. }
    split; [exact Hu|]. apply contains_false. now apply underscored_key_absent. }
  split; [reflexivity|].
  unfold info. rewrite key_match_value.
  destruct (is_healthy raw_label).
  - split; [left; reflexivity|].
    intros k a Hin Hne. simpl in Hin.
    destruct Hin as [H|[H|[H|[H|[H|[]]]]]]; inversion H; subst;
      try discriminate. congruence.
  - split; [right; reflexivity|].
    intros k a Hin _. simpl in Hin.
    destruct Hin as [H|[H|[H|[H|[H|[]]]]]]; inversion H; subst; discriminate.
Qed.

Lemma not_occurs_nocase (k s : string) :
  lower k = k -> contains k (lower s) = false -> ~ occurs_nocase k s.
Proof.
  intros Hk Hc H. apply (occurs_lower k s Hk) in H.
  apply contains_false in Hc. contradiction.
Qed.

Lemma generate_report_first_match_witness :
  occurs_nocase "healthy" (clean_label "Apple___HEALTHY")
  /\ PyDict.lookup "healthy" ADVICE = Some (info "Apple___HEALTHY")
  /\ PyDict.lookup "healthy" ADVICE = Some (info "  potato_Healthy_leaf ")
  /\ info "Tomato___Late_blight" = generic_advice.
Proof.
  assert (Hocc : occurs_nocase "healthy" (clean_label "Apple___HEALTHY")).
  { exists "Apple   ", "HEALTHY", "". split; reflexivity. }
  assert (Hocc' : occurs_nocase "healthy"
                    (clean_label "  potato_Healthy_leaf ")).
  { exists "potato ", "Healthy", " leaf". split; reflexivity. }
  split; [exact Hocc|]. split; [|split].
  - rewrite (proj1 (proj2 (proj2 (proj2
               (generate_report_first_match "Apple___HEALTHY" 0.97))))
             (firstn 4 ADVICE) [] "healthy"
             (PyDict.get "healthy" ADVICE generic_advice) eq_refl Hocc).
    + reflexivity.
    + intros k' a' Hin. simpl in Hin.
      destruct Hin as [H|[H|[H|[H|[]]]]]; injection H as <- _;
        apply not_occurs_nocase; reflexivity.
  - rewrite (proj1 (proj2 (proj2 (proj2
               (generate_report_first_match "  potato_Healthy_leaf " 0.5))))
             (firstn 4 ADVICE) [] "healthy"
             (PyDict.get "healthy" ADVICE generic_advice) eq_refl Hocc').
    + reflexivity.
    + intros k' a' Hin. simpl in Hin.
      destruct Hin as [H|[H|[H|[H|[]]]]]; injection H as <- _;
        apply not_occurs_nocase; reflexivity.
  - apply (proj2 (proj2 (proj2 (proj2
             (generate_report_first_match "Tomato___Late_blight" 0.93))))).
    intros k Hin. simpl in Hin.
    destruct Hin as [<-|[<-|[<-|[<-|[<-|[]]]]]];
      apply not_occurs_nocase; reflexivity.
Defined.

Lemma generate_report_status_witness :
  occurs_nocase "healthy" (clean_label "Apple___HEALTHY")
  /\ status (generate_report "Apple___HEALTHY" 0.97) = "Healthy"
  /\ title (generate_report "Apple___HEALTHY" 0.97) = "✅ Apple   HEALTHY"
  /\ status (generate_report "healthy" 0.99) = "Healthy"
  /\ title (generate_report "healthy" 0.99) = "✅ healthy"
  /\ ~ occurs_nocase "healthy" (clean_label "Tomato___Late_blight")
  /\ title (generate_report "Tomato___Late_blight" 0.93) =
     "⚠️ Tomato   Late blight".
Proof.
  assert (Hocc : occurs_nocase "healthy" (clean_label "Apple___HEALTHY")).
  { exists "Apple   ", "HEALTHY", "". split; reflexivity. }
  assert (Hno : ~ occurs_nocase "healthy" (clean_label "Tomato___Late_blight"))
    by (apply not_occurs_nocase; reflexivity).
  pose proof (generate_report_status "Apple___HEALTHY" 0.97)
    as (_ & Hiff & _ & Htitle & _).
  pose proof (generate_report_status "Tomato___Late_blight" 0.93)
    as (_ & _ & Hinf & _ & Hwarn).
  split; [exact Hocc|].
  split; [exact (proj2 Hiff Hocc)|].
  split; [exact (Htitle (proj2 Hiff Hocc))|].
  split; [reflexivity|].
  split; [exact (proj1 (proj2 (proj2 (proj2
                   (generate_report_status "healthy" 0.99)))) eq_refl)|].
  split; [exact Hno|].
  exact (Hwarn (proj2 Hinf Hno)).
Defined.

Lemma generate_report_never_disease_specific_witness :
  In "late_blight"
    ["bacterial_spot"; "early_blight"; "late_blight"; "powdery_mildew"]
  /\ ~ occurs "late_blight" (lower (clean_label "Tomato___Late_blight"))
  /\ info "Tomato___Late_blight" <>
       PyDict.get "late_blight" ADVICE generic_advice.
Proof.
  assert (Hin : In "late_blight"
                  ["bacterial_spot"; "early_blight"; "late_blight";
                   "powdery_mildew"]) by (simpl; tauto).
  split; [exact Hin|]. split.
  - exact (proj2 (proj1 (proj2
             (generate_report_never_disease_specific
                "Tomato___Late_blight" 0.93)) "late_blight" Hin)).
  - apply (proj2 (proj2 (proj2 (proj2
             (generate_report_never_disease_specific
                "Tomato___Late_blight" 0.93)))) "late_blight").
    + do 2 right. left. reflexivity.
    + discriminate.
Defined.

End KnowledgeBaseFacts.

(* ================================================================== *)
(** ** Dicts *)
(* ================================================================== *)

Section DictFacts.
Context {V : Type}.
Implicit Types (d : list (string * V)) (k : string) (v : V).

Lemma lookup_set_same k v d : PyDict.lookup k (PyDict.set k v d) = Some v.
Proof.
  induction d as [|[k0 v0] d IH]; simpl.
  - now rewrite String.eqb_refl.
  - destruct (String.eqb k0 k) eqn:E; simpl; now rewrite E.
Qed.

Lemma lookup_set_other k k' v d :
  k' <> k -> PyDict.lookup k' (PyDict.set k v d) = PyDict.lookup k' d.
Proof.
  intros Hne. induction d as [|[k0 v0] d IH]; simpl.
  - destruct (String.eqb_spec k k'); [congruence | reflexivity].
  - destruct (String.eqb_spec k0 k) as [->|_]; simpl.
    + destruct (String.eqb_spec k k'); [congruence | reflexivity].
    + now rewrite IH.
Qed.

Lemma set_absent k v d :
  PyDict.mem k d = false -> PyDict.set k v d = (d ++ [(k, v)])%list.
Proof.
  unfold PyDict.mem. induction d as [|[k0 v0] d IH]; simpl; [reflexivity|].
  destruct (String.eqb k0 k); [discriminate|].
  intros H. now rewrite IH.
Qed.

Lemma mem_lookup k d :
  PyDict.mem k d = true -> exists v, PyDict.lookup k d = Some v.
Proof.
  unfold PyDict.mem. destruct (PyDict.lookup k d) as [v|]; [|discriminate].
  intros _. now exists v.
Qed.

Lemma key_count_absent k d :
  PyDict.mem k d = false -> Spec.key_count k d = 0%nat.
Proof.
  unfold PyDict.mem, Spec.key_count.
  induction d as [|[k0 v0] d IH]; simpl; [reflexivity|].
  rewrite (String.eqb_sym k k0).
  destruct (String.eqb k0 k); [discriminate|]. exact IH.
Qed.

Lemma key_count_app k d d' :
  Spec.key_count k (d ++ d') = (Spec.key_count k d + Spec.key_count k d')%nat.
Proof.
  unfold Spec.key_count, PyDict.keys.
  now rewrite map_app, filter_app, length_app.
Qed.

End DictFacts.

(* ================================================================== *)
(** ** DataManager: how the methods run *)
(* ================================================================== *)

Section Running.
Import Py DataManager Spec.

Lemma load_stored (w : world) : _load w = (Ok (stored w), w).
Proof.
  unfold _load, try_except, read_json, stored, ret.
  now destruct (file w).
Qed.

Lemma bind_load {B : Type} (k : json -> M B) (w : world) :
  bind _load k w = k (stored w) w.
Proof. unfold bind. now rewrite load_stored. Qed.

Lemma bind_save {B : Type} (data : json) (k : unit -> M B) (w : world) :
  bind (_save data) k w = k tt (with_file (Holds data) w).
Proof. reflexivity. Qed.

Lemma bind_lift {A B : Type} (r : result A) (k : A -> M B) (w : world) :
  bind (lift r) k w =
  match r with Ok a => k a w | Raise e => (Raise e, w) end.
Proof. unfold bind, lift. now destruct r. Qed.

Lemma bind_ret {A B : Type} (a : A) (k : A -> M B) (w : world) :
  bind (ret a) k w = k a w.
Proof. reflexivity. Qed.

Lemma stored_with_file (doc : json) (w : world) :
  stored (with_file (Holds doc) w) = doc.
Proof. reflexivity. Qed.

End Running.

Ltac run :=
  repeat (rewrite ?bind_load, ?bind_save, ?bind_lift, ?bind_ret,
            ?stored_with_file; cbv beta iota).

(* ================================================================== *)
(** ** DataManager._ensure_db *)
(* ================================================================== *)

Section EnsureDb.
Import Py DataManager Spec.

(** The digests of the empty text and of "abc", as the standard gives
    them, and the length of the table of constants. *)
Lemma sha256_test_vectors :
  _hash "" = "e3b0c44298fc1c149afbf4c8996fb92427ae41e4649b934ca495991b7852b855"
  /\ _hash "abc" =
       "ba7816bf8f01cfea414140de5dae2223b00361a396177a9cb410ff61f20015ad"
  /\ List.length Sha256.K = 64%nat.
Proof. vm_compute. repeat split; reflexivity. Qed.

(** With no file, the store is created and the administrator
    registered. *)
Lemma ensure_db_missing_registers_admin :
  let w := sample_world Missing in
  file (snd (_ensure_db w)) =
    Holds (JDict [("users", JDict [("admin", fresh_record "admin")])])
  /\ fst ((_ensure_db ;; verify_user "admin" "admin") w) = Ok true.
Proof. vm_compute. split; reflexivity. Qed.

(** C1, on the code: a file that does not parse is read by [_load] as
    the empty store, which has the key "users": [_ensure_db] takes it for
    a sound store, leaves the file as it is and registers nobody, so that
    "admin" with password "admin" is not verified afterwards. *)
Theorem ensure_db_unparseable_not_reset
    (t : string) (u : nat -> string) (n : nat) :
  let w := {| file := Unparseable; today := t; uuid4 := u; drawn := n |} in
  _ensure_db w = (Ok tt, w)
  /\ file (snd (_ensure_db w)) = Unparseable
  /\ stored (snd (_ensure_db w)) = empty_store
  /\ (_ensure_db ;; verify_user "admin" "admin") w = (Ok false, w).
Proof. repeat split; reflexivity. Qed.

(** C9 as stated fails: the old document with the key "admin" becomes
    the value of the key "users", it is not put under an "admin" entry;
    and a document that is [null] gives way to the empty store with the
    administrator registered, not to the empty users mapping. *)
Lemma ensure_db_repair_not_as_stated :
  file (snd (_ensure_db (sample_world (Holds legacy_doc)))) =
    Holds (JDict [("users", legacy_doc)])
  /\ file (snd (_ensure_db (sample_world (Holds legacy_doc)))) <>
       Holds (repair_as_stated legacy_doc)
  /\ file (snd (_ensure_db (sample_world (Holds JNull)))) =
       Holds (JDict [("users", JDict [("admin", fresh_record "admin")])])
  /\ file (snd (_ensure_db (sample_world (Holds JNull)))) <>
       Holds (repair_as_stated JNull).
Proof.
  vm_compute. repeat split; try reflexivity; intros H; discriminate H.
Qed.

(** C9, amended: a store file that holds a JSON object without the key
    "users" is rewritten; an object with the key "admin" becomes, whole,
    the value of the key "users" of the new document, any other object
    is replaced by the document with an empty users mapping. *)
Theorem ensure_db_repairs_object (w : world) (d : list (string * json)) :
  file w = Holds (JDict d) ->
  PyDict.mem "users" d = false ->
  _ensure_db w =
    (Ok tt,
     with_file
       (Holds (if PyDict.mem "admin" d then JDict [("users", JDict d)]
               else empty_store)) w).
Proof.
  intros Hf Hu.
  assert (Hs : stored w = JDict d) by (unfold stored; now rewrite Hf).
  unfold _ensure_db, bind at 1, path_exists. rewrite Hf. cbv beta iota.
  change (negb true) with false. cbv iota.
  unfold try_except. run. rewrite Hs. unfold contains. run.
  rewrite Hu. change (negb false) with true. cbv iota. run.
  destruct (PyDict.mem "admin" d); reflexivity.
Qed.

Lemma ensure_db_repairs_object_witness :
  file (sample_world (Holds legacy_doc)) =
    Holds (JDict [("admin", fresh_record "admin")])
  /\ PyDict.mem "users" [("admin", fresh_record "admin")] = false
  /\ _ensure_db (sample_world (Holds legacy_doc)) =
       (Ok tt,
        with_file (Holds (JDict [("users", legacy_doc)]))
          (sample_world (Holds legacy_doc))).
Proof.
  split; [reflexivity|]. split; [reflexivity|].
  exact (ensure_db_repairs_object (sample_world (Holds legacy_doc))
           [("admin", fresh_record "admin")] eq_refl eq_refl).
Defined.

End EnsureDb.

(* ================================================================== *)
(** ** DataManager.register_user and verify_user *)
(* ================================================================== *)

Section Users.
Import Py DataManager Spec.

Lemma register_user_taken (w : world) (u p : string)
    (db users : list (string * json)) :
  stored w = JDict db ->
  PyDict.lookup "users" db = Some (JDict users) ->
  PyDict.mem u users = true ->
  register_user u p w = (Ok (false, "Username taken"), w).
Proof.
  intros Hs Hu Hm. unfold register_user. run.
  rewrite Hs. unfold getitem at 1. rewrite Hu. run.
  unfold contains. run. now rewrite Hm.
Qed.

Lemma register_user_new (w : world) (u p : string)
    (db users : list (string * json)) :
  stored w = JDict db ->
  PyDict.lookup "users" db = Some (JDict users) ->
  PyDict.mem u users = false ->
  register_user u p w =
    (Ok (true, "Success"),
     with_file
       (Holds (JDict (PyDict.set "users"
                        (JDict (users ++ [(u, fresh_record p)])) db))) w).
Proof.
  intros Hs Hu Hm. unfold register_user. run.
  rewrite Hs. unfold getitem at 1. rewrite Hu. run.
  unfold contains. run. rewrite Hm. cbv iota.
  unfold setitem. run. now rewrite (set_absent _ _ _ Hm).
Qed.

Lemma mem_app_new {V : Type} (u : string) (v : V) (d : list (string * V)) :
  PyDict.mem u (d ++ [(u, v)]) = true
  /\ (PyDict.mem u d = false -> PyDict.lookup u (d ++ [(u, v)]) = Some v).
Proof.
  split.
  - unfold PyDict.mem. induction d as [|[k0 v0] d IH]; simpl.
    + now rewrite String.eqb_refl.
    + destruct (String.eqb k0 u); [reflexivity | exact IH].
  - intros H. rewrite <- (set_absent _ v _ H). apply lookup_set_same.
Qed.

(** C5: a user name that is taken is refused and the store is left as
    it is; a new one is stored with the hash of its password and an
    empty history and inventory, the store is written out and the call
    succeeds, after which the name has one record and is refused if
    registered again, whatever the password. *)
Theorem register_user_unique (w : world) (u p : string)
    (db users : list (string * json)) :
  stored w = JDict db ->
  PyDict.lookup "users" db = Some (JDict users) ->
  (PyDict.mem u users = true ->
   register_user u p w = (Ok (false, "Username taken"), w))
  /\ (PyDict.mem u users = false ->
      let users' := (users ++ [(u, fresh_record p)])%list in
      let w' := with_file
                  (Holds (JDict (PyDict.set "users" (JDict users') db))) w in
      register_user u p w = (Ok (true, "Success"), w')
      /\ getitem (stored w') "users" = Ok (JDict users')
      /\ PyDict.lookup u users' = Some (fresh_record p)
      /\ key_count u users' = 1%nat
      /\ forall q, register_user u q w' = (Ok (false, "Username taken"), w')).
Proof.
  intros Hs Hu. split; [now apply register_user_taken with db|].
  intros Hm users' w'.
  assert (Hl : PyDict.lookup "users" (PyDict.set "users" (JDict users') db)
               = Some (JDict users')) by apply lookup_set_same.
  split; [now apply register_user_new|].
  split; [unfold w'; rewrite stored_with_file; simpl; now rewrite Hl|].
  split; [now apply mem_app_new|].
  split.
  - unfold users'. rewrite key_count_app, (key_count_absent _ _ Hm).
    unfold key_count. simpl. now rewrite String.eqb_refl.
  - intros q.
    apply register_user_taken
      with (db := PyDict.set "users" (JDict users') db) (users := users').
    + reflexivity.
    + exact Hl.
    + apply mem_app_new.
Qed.

Lemma register_user_unique_witness :
  let w := sample_world (Holds fresh_store) in
  let w' := snd (register_user "alice" "x" w) in
  stored w = fresh_store
  /\ PyDict.mem "alice" [("admin", fresh_record "admin")] = false
  /\ register_user "alice" "x" w = (Ok (true, "Success"), w')
  /\ register_user "alice" "y" w' = (Ok (false, "Username taken"), w')
  /\ stored w' =
       JDict [("users", JDict [("admin", fresh_record "admin");
                               ("alice", fresh_record "x")])].
Proof.
  intros w w'. split; [reflexivity|]. split; [reflexivity|].
  destruct (proj2 (register_user_unique w "alice" "x" _ _ eq_refl eq_refl)
              eq_refl) as (Hreg & _ & _ & _ & Htaken).
  split; [exact Hreg|]. split; [exact (Htaken "y") | reflexivity].
Defined.

Lemma verify_user_world (u p : string) (w : world) :
  snd (verify_user u p w) = w.
Proof.
  unfold verify_user. run.
  destruct (get (stored w) "users" (JDict [])) as [users|e]; [|reflexivity].
  run. destruct (contains u users) as [[|]|e]; try reflexivity.
  run. destruct (getitem users u) as [record|e]; [|reflexivity].
  run. destruct (getitem record "password") as [pw|e]; reflexivity.
Qed.

Lemma verify_user_run (w : world) (u p : string)
    (db users : list (string * json)) :
  stored w = JDict db ->
  PyDict.lookup "users" db = Some (JDict users) ->
  verify_user u p w =
    (match PyDict.lookup u users with
     | None => Ok false
     | Some record =>
         match getitem record "password" with
         | Ok pw => Ok (eq_str pw (_hash p))
         | Raise e => Raise e
         end
     end, w).
Proof.
  intros Hs Hu. unfold verify_user. run. rewrite Hs.
  unfold get at 1, PyDict.get. rewrite Hu. run.
  unfold contains, PyDict.mem, getitem at 1. run.
  destruct (PyDict.lookup u users) as [record|]; [|reflexivity].
  run. destruct (getitem record "password"); reflexivity.
Qed.

Lemma eq_str_true (j : json) (s : string) :
  eq_str j s = true <-> j = JStr s.
Proof.
  destruct j; simpl; try (split; [discriminate | intros H; discriminate H]).
  rewrite String.eqb_eq. split; congruence.
Qed.

Lemma verify_user_true (w : world) (u p : string) :
  fst (verify_user u p w) = Ok true <->
  exists db users record,
    stored w = JDict db
    /\ PyDict.lookup "users" db = Some (JDict users)
    /\ PyDict.lookup u users = Some (JDict record)
    /\ PyDict.lookup "password" record = Some (JStr (_hash p)).
Proof.
  split.
  - unfold verify_user. run.
    destruct (stored w) as [| | | | | |db] eqn:Hs; try discriminate.
    unfold get at 1. run.
    unfold PyDict.get.
    destruct (PyDict.lookup "users" db) as [users|] eqn:Hu.
    + destruct users as [| | | | s | l |users]; try discriminate.
      * unfold contains. run. destruct (PyStr.contains u s); discriminate.
      * unfold contains. run. destruct (existsb _ l); discriminate.
      * unfold contains, PyDict.mem. run. unfold getitem at 1.
        destruct (PyDict.lookup u users) as [record|] eqn:Hr; [|discriminate].
        run. destruct record as [| | | | | |record]; try discriminate.
        unfold getitem.
        destruct (PyDict.lookup "password" record) as [pw|] eqn:Hp;
          [|discriminate].
        simpl. intros H. injection H as H. apply eq_str_true in H. subst pw.
        now exists db, users, record.
    + discriminate.
  - intros (db & users & record & Hs & Hu & Hr & Hp).
    rewrite (verify_user_run w u p db users Hs Hu), Hr. simpl.
    rewrite Hp. simpl. now rewrite String.eqb_refl.
Qed.

Lemma register_user_success (w w' : world) (u q : string) (msg : string) :
  register_user u q w = (Ok (true, msg), w') ->
  exists db users,
    stored w = JDict db
    /\ PyDict.lookup "users" db = Some (JDict users)
    /\ PyDict.mem u users = false
    /\ w' = with_file
              (Holds (JDict (PyDict.set "users"
                               (JDict (users ++ [(u, fresh_record q)])) db))) w.
Proof.
  unfold register_user. run.
  destruct (stored w) as [| | | | | |db] eqn:Hs; try discriminate.
  unfold getitem at 1.
  destruct (PyDict.lookup "users" db) as [users|] eqn:Hu; [|discriminate].
  run. destruct users as [| | | | s | l |users]; try discriminate.
  - unfold contains. run. destruct (PyStr.contains u s); discriminate.
  - unfold contains. run. destruct (existsb _ l); discriminate.
  - unfold contains. run.
    destruct (PyDict.mem u users) eqn:Hm; [discriminate|].
    unfold setitem. run. intros H. injection H as _ <-.
    exists db, users. rewrite (set_absent _ _ _ Hm). auto.
Qed.

(** C6: [verify_user] answers true exactly when the user name is a key
    of the users of the store and the password of its record is the hash
    of the password given; the world is left as it is.  So it answers
    true for a name and the password it has just been registered with,
    false for a password with another hash, and false for a name that is
    not in the store. *)
Theorem verify_user_spec (w : world) (u p : string) :
  (fst (verify_user u p w) = Ok true <->
   exists db users record,
     stored w = JDict db
     /\ PyDict.lookup "users" db = Some (JDict users)
     /\ PyDict.lookup u users = Some (JDict record)
     /\ PyDict.lookup "password" record = Some (JStr (_hash p)))
  /\ snd (verify_user u p w) = w
  /\ (forall q w',
        register_user u q w = (Ok (true, "Success"), w') ->
        fst (verify_user u q w') = Ok true
        /\ (_hash p <> _hash q -> fst (verify_user u p w') = Ok false))
  /\ (forall db users,
        stored w = JDict db ->
        PyDict.lookup "users" db = Some (JDict users) ->
        PyDict.mem u users = false ->
        fst (verify_user u p w) = Ok false).
Proof.
  split; [apply verify_user_true|]. split; [apply verify_user_world|]. split.
  - intros q w' Hreg.
    destruct (register_user_success _ _ _ _ _ Hreg)
      as (db & users & Hs & Hu & Hm & ->).
    assert (Hrun : forall p',
      fst (verify_user u p'
             (with_file
                (Holds (JDict (PyDict.set "users"
                                 (JDict (users ++ [(u, fresh_record q)])) db)))
                w))
      = Ok (String.eqb (_hash q) (_hash p'))).
    { intros p'.
      erewrite verify_user_run;
        [|apply stored_with_file|apply lookup_set_same].
      now rewrite (proj2 (mem_app_new u (fresh_record q) users) Hm). }
    split.
    + rewrite Hrun. now rewrite String.eqb_refl.
    + intros Hne. rewrite Hrun.
      destruct (String.eqb_spec (_hash q) (_hash p)); congruence.
  - intros db users Hs Hu Hm.
    rewrite (verify_user_run w u p db users Hs Hu).
    unfold PyDict.mem in Hm.
    now destruct (PyDict.lookup u users).
Qed.

Lemma verify_user_spec_witness :
  let w := sample_world (Holds fresh_store) in
  let w' := snd (register_user "alice" "x" w) in
  register_user "alice" "x" w = (Ok (true, "Success"), w')
  /\ _hash "wrong" <> _hash "x"
  /\ fst (verify_user "alice" "x" w') = Ok true
  /\ fst (verify_user "alice" "wrong" w') = Ok false
  /\ fst (verify_user "nobody" "x" w') = Ok false.
Proof.
  intros w w'.
  assert (Hreg : register_user "alice" "x" w = (Ok (true, "Success"), w'))
    by reflexivity.
  assert (Hne : _hash "wrong" <> _hash "x")
    by (vm_compute; intros H; discriminate H).
  split; [exact Hreg|]. split; [exact Hne|].
  destruct (proj1 (proj2 (proj2 (verify_user_spec w "alice" "wrong")))
              "x" w' Hreg) as [Hx Hwrong].
  split; [exact Hx|]. split; [exact (Hwrong Hne)|].
  refine (proj2 (proj2 (proj2 (verify_user_spec w' "nobody" "x")))
            _ _ eq_refl eq_refl eq_refl).
Defined.

End Users.

Ltac eval_eqb :=
  repeat match goal with
  | |- context [String.eqb ?a ?b] =>
      let v := eval vm_compute in (String.eqb a b) in
      change (String.eqb a b) with v
  end; cbv iota.


(* ================================================================== *)
(** ** DataManager: the inventory *)
(* ================================================================== *)

Section Inventory.
Import Py DataManager Spec.

Lemma bind_uuid4 {B : Type} (k : string -> M B) (w : world) :
  bind uuid4_str k w =
  k (uuid4 w (drawn w))
    {| file := file w; today := today w; uuid4 := uuid4 w;
       drawn := S (drawn w) |}.
Proof. reflexivity. Qed.

Lemma bind_date {B : Type} (k : string -> M B) (w : world) :
  bind strftime_date k w = k (today w) w.
Proof. reflexivity. Qed.

Lemma lookup_mem {V : Type} (k : string) (v : V) (d : list (string * V)) :
  PyDict.lookup k d = Some v -> PyDict.mem k d = true.
Proof. unfold PyDict.mem. now intros ->. Qed.

Lemma get_set_same {V : Type} (k : string) (v v0 : V) (d : list (string * V)) :
  PyDict.get k (PyDict.set k v d) v0 = v.
Proof. unfold PyDict.get. now rewrite lookup_set_same. Qed.

Lemma get_inventory_run (w : world) (user : string)
    (db users record : list (string * json)) :
  stored w = JDict db ->
  PyDict.lookup "users" db = Some (JDict users) ->
  PyDict.lookup user users = Some (JDict record) ->
  get_inventory user w = (Ok (PyDict.get "inventory" record (JList [])), w).
Proof.
  intros Hs Hu Hr. unfold get_inventory. run. rewrite Hs.
  unfold get at 1, PyDict.get at 1. rewrite Hu. run.
  unfold get at 1, PyDict.get at 1. rewrite Hr. run.
  reflexivity.
Qed.

(** C7: for a user of the store, [add_item] followed by
    [get_inventory] gives the inventory with the new item first, which
    has the name, the category, the quantity and the notes given and the
    date of the day, and the items that were there before after it, as
    they were. *)
Theorem add_item_then_get_inventory (w : world) (user : string)
    (name category qty notes : json)
    (db users record : list (string * json)) (old : list json) :
  stored w = JDict db ->
  PyDict.lookup "users" db = Some (JDict users) ->
  PyDict.lookup user users = Some (JDict record) ->
  PyDict.lookup "inventory" record = Some (JList old) ->
  fst (get_inventory user w) = Ok (JList old)
  /\ fst (add_item user name category qty notes w) = Ok tt
  /\ fst ((add_item user name category qty notes ;; get_inventory user) w) =
       Ok (JList
             (JDict [("id", JStr (PyStr.take 8 (uuid4 w (drawn w))));
                     ("name", name);
                     ("category", category);
                     ("qty", qty);
                     ("notes", notes);
                     ("date", JStr (today w))] :: old)).
Proof.
  intros Hs Hu Hr Hi. split.
  { rewrite (get_inventory_run w user db users record Hs Hu Hr).
    unfold PyDict.get. now rewrite Hi. }
  assert (Hadd : exists w',
    add_item user name category qty notes w = (Ok tt, w')
    /\ get_inventory user w' =
       (Ok (JList
             (JDict [("id", JStr (PyStr.take 8 (uuid4 w (drawn w))));
                     ("name", name);
                     ("category", category);
                     ("qty", qty);
                     ("notes", notes);
                     ("date", JStr (today w))] :: old)), w')).
  { unfold add_item. run. rewrite Hs. unfold getitem at 1. rewrite Hu. run.
    unfold contains. rewrite (lookup_mem _ _ _ Hr). run.
    rewrite bind_uuid4, bind_date. run.
    unfold getitem at 1. rewrite Hr. run.
    unfold getitem at 1. rewrite Hi. run.
    unfold insert0, setitem. run.
    eexists. split; [reflexivity|].
    erewrite get_inventory_run;
      [|apply stored_with_file|apply lookup_set_same|apply lookup_set_same].
    now rewrite get_set_same. }
  destruct Hadd as (w' & Hadd & Hget).
  split; [now rewrite Hadd|].
  unfold bind. now rewrite Hadd, Hget.
Qed.

Lemma add_item_then_get_inventory_witness :
  let w := sample_world (Holds sample_store) in
  stored w = sample_store
  /\ fst ((add_item "alice" (JStr "Neem oil") (JStr "Fertilizer") (JStr "2")
             (JStr "weekly") ;; get_inventory "alice") w) =
       Ok (JList
             (JDict [("id", JStr "3f2b8c1e");
                     ("name", JStr "Neem oil");
                     ("category", JStr "Fertilizer");
                     ("qty", JStr "2");
                     ("notes", JStr "weekly");
                     ("date", JStr "2026-11-03")] :: sample_items)).
Proof.
  intros w. split; [reflexivity|].
  exact (proj2 (proj2
    (add_item_then_get_inventory w "alice" (JStr "Neem oil")
       (JStr "Fertilizer") (JStr "2") (JStr "weekly")
       _ _ _ sample_items eq_refl eq_refl eq_refl eq_refl))).
Defined.

Lemma count_category_cons (c : string) (i : json) (items : list json) :
  count_category c (i :: items) =
  (if eq_str (category_of i) c then 1 else 0) + count_category c items.
Proof.
  unfold count_category. simpl.
  destruct (eq_str (category_of i) c); simpl List.length; lia.
Qed.

Lemma count_other_cons (i : json) (items : list json) :
  count_other (i :: items) =
  (if eq_str (category_of i) "Plant" then 0
   else if eq_str (category_of i) "Seed" then 0
   else if eq_str (category_of i) "Tool" then 0 else 1) + count_other items.
Proof.
  unfold count_other. rewrite !count_category_cons.
  change (List.length (i :: items)) with (S (List.length items)).
  destruct (category_of i) as [| | | | s | |]; cbn [eq_str]; try lia.
  destruct (String.eqb_spec s "Plant") as [->|]; [eval_eqb; lia|].
  destruct (String.eqb_spec s "Seed") as [->|]; [eval_eqb; lia|].
  destruct (String.eqb_spec s "Tool") as [->|]; eval_eqb; lia.
Qed.

Lemma incr_four (a b c d : Z) :
  let stats := [("Plant", a); ("Seed", b); ("Tool", c); ("Other", d)] in
  incr "Plant" stats = [("Plant", a + 1); ("Seed", b); ("Tool", c); ("Other", d)]
  /\ incr "Seed" stats = [("Plant", a); ("Seed", b + 1); ("Tool", c); ("Other", d)]
  /\ incr "Tool" stats = [("Plant", a); ("Seed", b); ("Tool", c + 1); ("Other", d)]
  /\ incr "Other" stats = [("Plant", a); ("Seed", b); ("Tool", c); ("Other", d + 1)].
Proof. repeat split; reflexivity. Qed.

Lemma mem_four (s : string) (a b c d : Z) :
  PyDict.mem s [("Plant", a); ("Seed", b); ("Tool", c); ("Other", d)] =
  String.eqb s "Plant" || String.eqb s "Seed" || String.eqb s "Tool"
  || String.eqb s "Other".
Proof.
  unfold PyDict.mem. cbn [PyDict.lookup].
  rewrite !(String.eqb_sym s).
  destruct (String.eqb "Plant" s); [reflexivity|].
  destruct (String.eqb "Seed" s); [reflexivity|].
  destruct (String.eqb "Tool" s); [reflexivity|].
  now destruct (String.eqb "Other" s).
Qed.

Lemma tally_counts (items : list json) (a b c d : Z) :
  forallb is_item items = true ->
  tally items [("Plant", a); ("Seed", b); ("Tool", c); ("Other", d)] =
  Ok [("Plant", a + count_category "Plant" items);
      ("Seed", b + count_category "Seed" items);
      ("Tool", c + count_category "Tool" items);
      ("Other", d + count_other items)].
Proof.
  revert a b c d. induction items as [|i items IH]; intros a b c d Hok.
  - unfold count_other, count_category. simpl. repeat f_equal; lia.
  - simpl in Hok. apply andb_prop in Hok. destruct Hok as [Hi Hok].
    rewrite count_other_cons, !count_category_cons.
    destruct (incr_four a b c d) as (HP & HS & HT & HO).
    destruct i as [| | | | | |di]; try discriminate.
    simpl in Hi. cbn [tally get category_of].
    destruct (PyDict.get "category" di (JStr "Other")) as [| | | |s| |];
      try discriminate;
      cbn [key_in eq_str incr_at];
      try (rewrite HO, (IH _ _ _ _ Hok); now rewrite ?Z.add_0_l, ?Z.add_assoc).
    rewrite mem_four.
    destruct (String.eqb_spec s "Plant") as [->|_].
    { cbn [orb]. rewrite HP, (IH _ _ _ _ Hok). eval_eqb.
      now rewrite ?Z.add_0_l, ?Z.add_assoc. }
    destruct (String.eqb_spec s "Seed") as [->|_].
    { cbn [orb]. rewrite HS, (IH _ _ _ _ Hok). eval_eqb.
      now rewrite ?Z.add_0_l, ?Z.add_assoc. }
    destruct (String.eqb_spec s "Tool") as [->|_].
    { cbn [orb]. rewrite HT, (IH _ _ _ _ Hok). eval_eqb.
      now rewrite ?Z.add_0_l, ?Z.add_assoc. }
    destruct (String.eqb_spec s "Other") as [->|_].
    { cbn [orb]. rewrite HO, (IH _ _ _ _ Hok). eval_eqb.
      now rewrite ?Z.add_0_l, ?Z.add_assoc. }
    cbn [orb]. rewrite HO, (IH _ _ _ _ Hok).
    now rewrite ?Z.add_0_l, ?Z.add_assoc.
Qed.

Lemma get_inventory_world (user : string) (w : world) :
  snd (get_inventory user w) = w.
Proof.
  unfold get_inventory. run.
  destruct (get (stored w) "users" (JDict [])) as [users|e]; [|reflexivity].
  run. destruct (get users user (JDict [])) as [record|e]; [|reflexivity].
  run. unfold lift. reflexivity.
Qed.

(** C8: the statistics are a mapping over the categories Plant, Seed,
    Tool and Other, in which every item of the inventory is counted once:
    under its category when that is Plant, Seed or Tool, under Other in
    every other case, Fertilizer included. *)
Theorem get_stats_counts (w : world) (user : string) (items : list json) :
  fst (get_inventory user w) = Ok (JList items) ->
  forallb is_item items = true ->
  get_stats user w =
    (Ok [("Plant", count_category "Plant" items);
         ("Seed", count_category "Seed" items);
         ("Tool", count_category "Tool" items);
         ("Other", Z.of_nat (List.length items)
                   - count_category "Plant" items
                   - count_category "Seed" items
                   - count_category "Tool" items)], w).
Proof.
  intros Hinv Hok. unfold get_stats, bind at 1.
  pose proof (get_inventory_world user w) as Hw.
  destruct (get_inventory user w) as [r w']. simpl in Hinv, Hw.
  subst r w'. run. unfold iter. run.
  unfold lift. now rewrite (tally_counts items 0 0 0 0 Hok).
Qed.

Lemma get_stats_counts_witness :
  fst (get_inventory "alice" (sample_world (Holds sample_store))) =
    Ok (JList sample_items)
  /\ forallb is_item sample_items = true
  /\ get_stats "alice" (sample_world (Holds sample_store)) =
       (Ok [("Plant", 1); ("Seed", 1); ("Tool", 1); ("Other", 1)],
        sample_world (Holds sample_store)).
Proof.
  split; [reflexivity|]. split; [reflexivity|].
  exact (get_stats_counts (sample_world (Holds sample_store)) "alice"
           sample_items eq_refl eq_refl).
Defined.

End Inventory.

(* ================================================================== *)
(** ** DataManager._ensure_db on every file *)
(* ================================================================== *)

Section EnsureDbTotal.
Import Py DataManager Spec Effects.

Lemma with_file_same (w : world) (doc : json) :
  file w = Holds doc -> with_file (Holds doc) w = w.
Proof. destruct w as [f t u n]. simpl. now intros ->. Qed.

Lemma register_admin_on_empty (w : world) :
  register_user "admin" "admin" (with_file (Holds empty_store) w) =
  (Ok (true, "Success"), with_file (Holds fresh_store) w).
Proof.
  rewrite (register_user_new _ "admin" "admin" [("users", JDict [])] []);
    reflexivity.
Qed.

Lemma ensure_db_cases (w : world) :
  _ensure_db w =
  (Ok tt,
   match file w with
   | Missing => with_file (Holds fresh_store) w
   | Unparseable => w
   | Holds doc =>
       match repaired doc with
       | None => w
       | Some doc' => with_file (Holds doc') w
       end
   end).
Proof.
  unfold _ensure_db, bind at 1, path_exists.
  destruct (file w) as [| |doc] eqn:Hf; cbv beta iota.
  - change (negb false) with true. cbv iota. run.
    unfold bind. rewrite register_admin_on_empty. reflexivity.
  - change (negb true) with false. cbv iota.
    unfold try_except. run.
    unfold stored. rewrite Hf. reflexivity.
  - change (negb true) with false. cbv iota.
    unfold try_except. run.
    assert (Hs : stored w = doc) by (unfold stored; now rewrite Hf).
    rewrite Hs. unfold repaired.
    destruct (contains "users" doc) as [[|]|e] eqn:Hu; run.
    + reflexivity.
    + change (negb false) with true. cbv iota. run.
      destruct (contains "admin" doc) as [[|]|e] eqn:Ha; run.
      * reflexivity.
      * reflexivity.
      * destruct doc; discriminate.
    + unfold bind. rewrite register_admin_on_empty. reflexivity.
Qed.

(** Where every write is taken and every message printed, [_ensure_db]
    returns, whatever the file; afterwards the file exists, a read of it
    has "users" in it, and running [_ensure_db] again changes nothing. *)
Lemma ensure_db_total_idempotent (w : world) :
  fst (_ensure_db w) = Ok tt
  /\ file (snd (_ensure_db w)) <> Missing
  /\ contains "users" (stored (snd (_ensure_db w))) = Ok true
  /\ _ensure_db (snd (_ensure_db w)) = (Ok tt, snd (_ensure_db w)).
Proof.
  rewrite (ensure_db_cases w). cbn [fst snd].
  split; [reflexivity|].
  assert (Hsound : forall w',
            file w' <> Missing ->
            contains "users" (stored w') = Ok true ->
            _ensure_db w' = (Ok tt, w')).
  { intros w' Hm H. rewrite (ensure_db_cases w'). unfold stored in H.
    destruct (file w') as [| |doc]; [contradiction|reflexivity|].
    unfold repaired. now rewrite H. }
  set (w' := match file w with
             | Missing => with_file (Holds fresh_store) w
             | Unparseable => w
             | Holds doc =>
                 match repaired doc with
                 | None => w
                 | Some doc' => with_file (Holds doc') w
                 end
             end).
  assert (H : file w' <> Missing /\ contains "users" (stored w') = Ok true).
  { unfold w'. destruct (file w) as [| |doc] eqn:Hf.
    - split; [discriminate | reflexivity].
    - unfold stored. rewrite Hf. split; [discriminate | reflexivity].
    - unfold repaired.
      destruct (contains "users" doc) as [[|]|e] eqn:Hu.
      + unfold stored. rewrite Hf. split; [discriminate | exact Hu].
      + destruct (contains "admin" doc) as [[|]|e];
          (split; [discriminate | reflexivity]).
      + split; [discriminate | reflexivity]. }
  destruct H as [Hm Hu].
  split; [exact Hm|]. split; [exact Hu | exact (Hsound _ Hm Hu)].
Qed.

End EnsureDbTotal.

(* ================================================================== *)
(** ** DataManager: the methods on a user of the store *)
(* ================================================================== *)

Section Methods.
Import Py DataManager Spec Effects.

Section Structured.
Variables (w : world) (user : string) (db users record : list (string * json)).
Hypothesis Hs : stored w = JDict db.
Hypothesis Hu : PyDict.lookup "users" db = Some (JDict users).
Hypothesis Hr : PyDict.lookup user users = Some (JDict record).

Lemma add_item_run (name category qty notes : json) (old : list json) :
  PyDict.lookup "inventory" record = Some (JList old) ->
  add_item user name category qty notes w =
  (Ok tt,
   with_file
     (Holds (update_field user "inventory"
               (JList (new_item w name category qty notes :: old))
               db users record))
     (after_draw w)).
Proof.
  intros Hi. unfold add_item. run. rewrite Hs. unfold getitem at 1.
  rewrite Hu. run. unfold Py.contains. rewrite (lookup_mem _ _ _ Hr). run.
  rewrite bind_uuid4, bind_date. run.
  unfold getitem at 1. rewrite Hr. run.
  unfold getitem at 1. rewrite Hi. run.
  unfold insert0, setitem. run. reflexivity.
Qed.

Lemma delete_item_run (item_id : string) (items kept : list json) :
  PyDict.lookup "inventory" record = Some (JList items) ->
  without_id item_id items = Ok kept ->
  delete_item user item_id w =
  (Ok tt,
   with_file
     (Holds (update_field user "inventory" (JList kept) db users record)) w).
Proof.
  intros Hi Hk. unfold delete_item. run. rewrite Hs. unfold getitem at 1.
  rewrite Hu. run. unfold Py.contains. rewrite (lookup_mem _ _ _ Hr). run.
  unfold getitem at 1. rewrite Hr. run.
  unfold getitem at 1. rewrite Hi. run.
  unfold iter. run. rewrite Hk. run.
  unfold setitem. run. reflexivity.
Qed.

Lemma log_scan_run (hhmm img_path : string) (report : list (string * json))
    (result status : json) (old : list json) :
  PyDict.lookup "history" record = Some (JList old) ->
  PyDict.lookup "title" report = Some result ->
  PyDict.lookup "status" report = Some status ->
  log_scan hhmm user img_path (JDict report) w =
  (Ok tt,
   with_file
     (Holds (update_field user "history"
               (JList (new_entry w hhmm img_path result status :: old))
               db users record)) w).
Proof.
  intros Hh Ht Hst. unfold log_scan. run. rewrite Hs. unfold getitem at 1.
  rewrite Hu. run. unfold Py.contains. rewrite (lookup_mem _ _ _ Hr). run.
  rewrite bind_date. run.
  unfold getitem at 1. rewrite Ht. run.
  unfold getitem at 1. rewrite Hst. run.
  unfold getitem at 1. rewrite Hr. run.
  unfold getitem at 1. rewrite Hh. run.
  unfold insert0, setitem. run. reflexivity.
Qed.

Lemma get_history_run :
  get_history user w = (Ok (PyDict.get "history" record (JList [])), w).
Proof.
  unfold get_history. run. rewrite Hs.
  unfold get at 1, PyDict.get at 1. rewrite Hu. run.
  unfold get at 1, PyDict.get at 1. rewrite Hr. run.
  reflexivity.
Qed.

End Structured.

End Methods.

(* ================================================================== *)
(** ** DataManager.delete_item *)
(* ================================================================== *)

Section DeleteItem.
Import Py DataManager Spec Effects.

Lemma without_id_filter (item_id : string) (items : list json) :
  forallb has_id items = true ->
  without_id item_id items =
  Ok (filter (fun i => negb (id_is item_id i)) items).
Proof.
  induction items as [|i items IH]; intros H; [reflexivity|].
  simpl in H. apply andb_prop in H. destruct H as [Hi H].
  cbn [without_id filter]. rewrite (IH H).
  destruct i as [| | | | | |d]; try discriminate.
  unfold has_id, PyDict.mem in Hi. unfold getitem, id_is.
  destruct (PyDict.lookup "id" d) as [v|]; [|discriminate].
  now destruct (eq_str v item_id).
Qed.

Lemma filter_all {A : Type} (f : A -> bool) (l : list A) :
  forallb f l = true -> filter f l = l.
Proof.
  induction l as [|a l IH]; simpl; [reflexivity|].
  intros H. apply andb_prop in H. destruct H as [-> H]. now rewrite IH.
Qed.

Lemma set_same {V : Type} (k : string) (v : V) (d : list (string * V)) :
  PyDict.lookup k d = Some v -> PyDict.set k v d = d.
Proof.
  induction d as [|[k0 v0] d IH]; simpl; [discriminate|].
  destruct (String.eqb k0 k).
  - now intros [= ->].
  - intros H. now rewrite IH.
Qed.

Lemma user_in_file (w : world) (user : string)
    (db users : list (string * json)) (r : json) :
  stored w = JDict db ->
  PyDict.lookup "users" db = Some (JDict users) ->
  PyDict.lookup user users = Some r ->
  file w = Holds (JDict db).
Proof.
  unfold stored. destruct (file w) as [| |doc].
  - intros [= <-] [= <-]. discriminate.
  - intros [= <-] [= <-]. discriminate.
  - now intros ->.
Qed.

Section Deleting.
Variables (w : world) (user : string) (db users record : list (string * json))
  (items : list json).
Hypothesis Hs : stored w = JDict db.
Hypothesis Hu : PyDict.lookup "users" db = Some (JDict users).
Hypothesis Hr : PyDict.lookup user users = Some (JDict record).
Hypothesis Hi : PyDict.lookup "inventory" record = Some (JList items).
Hypothesis Hid : forallb has_id items = true.

Lemma get_inventory_updated (w' : world) (v : json) :
  get_inventory user
    (with_file (Holds (update_field user "inventory" v db users record)) w') =
  (Ok v,
   with_file (Holds (update_field user "inventory" v db users record)) w').
Proof.
  erewrite get_inventory_run;
    [|apply stored_with_file|apply lookup_set_same|apply lookup_set_same].
  now rewrite get_set_same.
Qed.

(** X4: for a user whose items all have an identifier, [delete_item]
    succeeds and [get_inventory] then gives the items whose identifier
    is not the one deleted, in their order. *)
Theorem delete_item_then_get_inventory (item_id : string) :
  fst (delete_item user item_id w) = Ok tt
  /\ fst ((delete_item user item_id ;; get_inventory user) w) =
     Ok (JList (filter (fun i => negb (id_is item_id i)) items)).
Proof.
  pose proof (delete_item_run w user db users record Hs Hu Hr item_id items _
                Hi (without_id_filter item_id items Hid)) as Hd.
  split; [now rewrite Hd|].
  unfold bind. rewrite Hd. now rewrite get_inventory_updated.
Qed.

(** X5: deleting an identifier that no item has leaves the world as it
    is: the file is written with the document it had. *)
Theorem delete_item_absent_id (item_id : string) :
  forallb (fun i => negb (id_is item_id i)) items = true ->
  delete_item user item_id w = (Ok tt, w).
Proof.
  intros Habs.
  rewrite (delete_item_run w user db users record Hs Hu Hr item_id items _
             Hi (without_id_filter item_id items Hid)).
  rewrite (filter_all _ _ Habs). unfold update_field.
  rewrite (set_same _ _ _ Hi), (set_same _ _ _ Hr), (set_same _ _ _ Hu).
  now rewrite (with_file_same w _ (user_in_file w user db users _ Hs Hu Hr)).
Qed.

(** X6: [add_item] followed by [delete_item] of the identifier just
    drawn leaves the old items without that identifier: the old
    inventory itself when no old item has the identifier, and less when
    one does, since an identifier is not checked to be new. *)
Theorem add_item_then_delete_item (name category qty notes : json) :
  let item_id := PyStr.take 8 (uuid4 w (drawn w)) in
  fst ((add_item user name category qty notes ;;
        delete_item user item_id ;;
        get_inventory user) w) =
    Ok (JList (filter (fun i => negb (id_is item_id i)) items))
  /\ (forallb (fun i => negb (id_is item_id i)) items = true ->
      fst ((add_item user name category qty notes ;;
            delete_item user item_id ;;
            get_inventory user) w) = Ok (JList items)).
Proof.
  intros item_id.
  assert (Hrun :
    fst ((add_item user name category qty notes ;;
          delete_item user item_id ;;
          get_inventory user) w) =
    Ok (JList (filter (fun i => negb (id_is item_id i)) items))).
  { unfold bind at 1.
    rewrite (add_item_run w user db users record Hs Hu Hr _ _ _ _ items Hi).
    unfold bind at 1.
    set (item := new_item w name category qty notes).
    unfold update_field.
    erewrite (delete_item_run _ user _ _ _ (stored_with_file _ _)
                (lookup_set_same _ _ _) (lookup_set_same _ _ _)
                item_id (item :: items)
                (filter (fun i => negb (id_is item_id i)) items)
                (lookup_set_same _ _ _)).
    - erewrite get_inventory_run;
        [|apply stored_with_file|apply lookup_set_same|apply lookup_set_same].
      now rewrite get_set_same.
    - rewrite without_id_filter.
      + cbn [filter].
        change (id_is item_id item) with (String.eqb item_id item_id).
        now rewrite String.eqb_refl.
      + cbn [forallb]. now rewrite Hid. }
  split; [exact Hrun|].
  intros Hfresh. rewrite Hrun. now rewrite (filter_all _ _ Hfresh).
Qed.

End Deleting.

End DeleteItem.

(* ================================================================== *)
(** ** DataManager.log_scan and the users that are not there *)
(* ================================================================== *)

Section History.
Import Py DataManager Spec Effects PyStr KnowledgeBase.

Lemma drop_past (a b : string) (c : ascii) :
  drop (S (String.length a)) (a ++ String c b) = b.
Proof. induction a as [|c' a IH]; simpl; [now destruct b | exact IH]. Qed.

Lemma append_char (a b : string) (c : ascii) :
  (a ++ String c "") ++ b = a ++ String c b.
Proof. induction a as [|c' a IH]; simpl; [reflexivity | now rewrite IH]. Qed.

Lemma rfind_spec (c : ascii) (s : string) :
  (rfind c s = -1 /\ has_char c s = false)
  \/ (exists a b, s = a ++ String c b
                  /\ rfind c s = Z.of_nat (String.length a)
                  /\ has_char c b = false).
Proof.
  induction s as [|c' s IH]; [left; split; reflexivity|].
  cbn [rfind has_char].
  destruct IH as [[Hr Hn]|(a & b & Hs & Hr & Hn)].
  - rewrite Hr. cbn [Z.leb Z.compare].
    destruct (Ascii.eqb_spec c' c) as [->|Hne].
    + right. exists "", s. repeat split; assumption.
    + left. split; [reflexivity | exact Hn].
  - right. exists (String c' a), b. rewrite Hr.
    destruct (Z.leb_spec 0 (Z.of_nat (String.length a))) as [_|Hlt]; [|lia].
    split; [now rewrite Hs|]. split; [|exact Hn].
    cbn [String.length]. lia.
Qed.

(** The base name is what follows the last slash: it holds none, and the
    path is a directory part, empty or ending with a slash, followed by
    it. *)
Lemma basename_spec (p : string) :
  has_char "/" (basename p) = false
  /\ exists dir, p = dir ++ basename p
                 /\ (dir = "" \/ exists d, dir = d ++ "/").
Proof.
  unfold basename.
  destruct (rfind_spec "/" p) as [[Hr Hn]|(a & b & Hs & Hr & Hn)].
  - rewrite Hr. cbn. split; [now destruct p|].
    exists "". split; [now destruct p | now left].
  - rewrite Hr.
    replace (Z.to_nat (Z.of_nat (String.length a) + 1))
      with (S (String.length a)) by lia.
    subst p. rewrite drop_past.
    split; [exact Hn|]. exists (a ++ "/").
    split; [now rewrite append_char|].
    right. now exists a.
Qed.

Section Logging.
Variables (w : world) (user : string) (db users record : list (string * json))
  (old : list json).
Hypothesis Hs : stored w = JDict db.
Hypothesis Hu : PyDict.lookup "users" db = Some (JDict users).
Hypothesis Hr : PyDict.lookup user users = Some (JDict record).
Hypothesis Hh : PyDict.lookup "history" record = Some (JList old).

Lemma get_history_updated (w' : world) (v : json) :
  get_history user
    (with_file (Holds (update_field user "history" v db users record)) w') =
  (Ok v, with_file (Holds (update_field user "history" v db users record)) w').
Proof.
  erewrite get_history_run;
    [|apply stored_with_file|apply lookup_set_same|apply lookup_set_same].
  now rewrite get_set_same.
Qed.

(** X7: for a user with a history, [log_scan] followed by
    [get_history] gives the new entry first, dated with the day and the
    time of the call, with the base name of the image, which holds no
    slash, and the title and status of the report; the old entries
    follow. *)
Theorem log_scan_then_get_history (hhmm img_path : string)
    (report : list (string * json)) (result status : json) :
  PyDict.lookup "title" report = Some result ->
  PyDict.lookup "status" report = Some status ->
  fst (get_history user w) = Ok (JList old)
  /\ fst ((log_scan hhmm user img_path (JDict report) ;; get_history user) w) =
     Ok (JList (JDict [("date", JStr (today w ++ " " ++ hhmm));
                       ("file", JStr (basename img_path));
                       ("result", result);
                       ("status", status)] :: old))
  /\ has_char "/" (basename img_path) = false.
Proof.
  intros Ht Hst. split.
  { rewrite (get_history_run w user db users record Hs Hu Hr).
    unfold PyDict.get. now rewrite Hh. }
  split; [|apply basename_spec].
  unfold bind.
  rewrite (log_scan_run w user db users record Hs Hu Hr hhmm img_path report
             result status old Hh Ht Hst).
  now rewrite get_history_updated.
Qed.

(** X8: a report without the key "title" or the key "status" makes
    [log_scan] raise KeyError for a user of the store, and nothing is
    written. *)
Theorem log_scan_missing_key (hhmm img_path : string)
    (report : list (string * json)) :
  PyDict.mem "title" report = false \/ PyDict.mem "status" report = false ->
  log_scan hhmm user img_path (JDict report) w = (Raise KeyError, w).
Proof.
  intros Hmiss. unfold log_scan. run. rewrite Hs. unfold getitem at 1.
  rewrite Hu. run. unfold Py.contains. rewrite (lookup_mem _ _ _ Hr). run.
  rewrite bind_date. run. unfold PyDict.mem in Hmiss.
  unfold getitem at 1.
  destruct (PyDict.lookup "title" report) as [t|]; [|reflexivity].
  run. unfold getitem at 1.
  destruct (PyDict.lookup "status" report) as [s|]; [|reflexivity].
  destruct Hmiss; discriminate.
Qed.

(** X9: logging what [generate_report] returns never lacks a key: the
    entry holds the title of the report and a status that is "Healthy"
    or "Infected". *)
Theorem log_scan_generated_report (hhmm img_path raw_label : string)
    (confidence : float) :
  fst ((log_scan hhmm user img_path
          (App.report_dict (generate_report raw_label confidence)) ;;
        get_history user) w) =
  Ok (JList
        (JDict [("date", JStr (today w ++ " " ++ hhmm));
                ("file", JStr (basename img_path));
                ("result",
                 JStr ((if is_healthy raw_label then "✅" else "⚠️")
                         ++ " " ++ clean_label raw_label));
                ("status",
                 JStr (if is_healthy raw_label then "Healthy"
                       else "Infected"))] :: old)).
Proof.
  unfold bind, App.report_dict.
  erewrite (log_scan_run w user db users record Hs Hu Hr hhmm img_path _
              _ _ old Hh); [|reflexivity|reflexivity].
  now rewrite get_history_updated.
Qed.

End Logging.

Section UnknownUser.
Variables (w : world) (user : string) (db users : list (string * json)).
Hypothesis Hs : stored w = JDict db.
Hypothesis Hu : PyDict.lookup "users" db = Some (JDict users).
Hypothesis Hm : PyDict.mem user users = false.

Lemma add_item_absent (name category qty notes : json) :
  add_item user name category qty notes w = (Ok tt, w).
Proof.
  unfold add_item. run. rewrite Hs. unfold getitem at 1. rewrite Hu. run.
  unfold Py.contains. now rewrite Hm.
Qed.

Lemma delete_item_absent (item_id : string) :
  delete_item user item_id w = (Ok tt, w).
Proof.
  unfold delete_item. run. rewrite Hs. unfold getitem at 1. rewrite Hu.
  run. unfold Py.contains. now rewrite Hm.
Qed.

Lemma log_scan_absent (hhmm img_path : string) (report : json) :
  log_scan hhmm user img_path report w = (Ok tt, w).
Proof.
  unfold log_scan. run. rewrite Hs. unfold getitem at 1. rewrite Hu. run.
  unfold Py.contains. now rewrite Hm.
Qed.

(** X10: for a user name that is not in the store, [add_item],
    [delete_item] and [log_scan] do nothing, not even drawing an
    identifier or looking at the report, and the inventory, the history
    and the statistics are empty. *)
Theorem unknown_user_noop (name category qty notes report : json)
    (item_id hhmm img_path : string) :
  add_item user name category qty notes w = (Ok tt, w)
  /\ delete_item user item_id w = (Ok tt, w)
  /\ log_scan hhmm user img_path report w = (Ok tt, w)
  /\ get_inventory user w = (Ok (JList []), w)
  /\ get_history user w = (Ok (JList []), w)
  /\ get_stats user w =
     (Ok [("Plant", 0); ("Seed", 0); ("Tool", 0); ("Other", 0)], w).
Proof.
  assert (Hn : PyDict.lookup user users = None).
  { unfold PyDict.mem in Hm. now destruct (PyDict.lookup user users). }
  assert (Hinv : get_inventory user w = (Ok (JList []), w)).
  { unfold get_inventory. run. rewrite Hs.
    unfold get at 1, PyDict.get at 1. rewrite Hu. run.
    unfold get at 1, PyDict.get at 1. rewrite Hn. run. reflexivity. }
  split; [apply add_item_absent|]. split; [apply delete_item_absent|].
  split; [apply log_scan_absent|]. split; [exact Hinv|]. split.
  - unfold get_history. run. rewrite Hs.
    unfold get at 1, PyDict.get at 1. rewrite Hu. run.
    unfold get at 1, PyDict.get at 1. rewrite Hn. run. reflexivity.
  - unfold get_stats, bind at 1. rewrite Hinv. reflexivity.
Qed.

End UnknownUser.

End History.

(* ================================================================== *)
(** ** DataManager: the shape of the store is kept *)
(* ================================================================== *)

Section Shape.
Import Py DataManager Spec Effects.

Lemma forallb_set {V : Type} (P : string * V -> bool) (k : string) (v : V)
    (d : list (string * V)) :
  forallb P d = true -> P (k, v) = true ->
  (forall k', String.eqb k' k = true -> P (k', v) = P (k, v)) ->
  forallb P (PyDict.set k v d) = true.
Proof.
  intros Hd Hv Hk. induction d as [|[k0 v0] d IH]; simpl.
  - now rewrite Hv.
  - simpl in Hd. apply andb_prop in Hd. destruct Hd as [H0 Hd].
    destruct (String.eqb k0 k) eqn:E; simpl.
    + rewrite (Hk k0 E), Hv. exact Hd.
    + rewrite H0. now apply IH.
Qed.

Lemma forallb_lookup {V : Type} (P : string * V -> bool) (k : string) (v : V)
    (d : list (string * V)) :
  forallb P d = true -> PyDict.lookup k d = Some v ->
  exists k', P (k', v) = true.
Proof.
  induction d as [|[k0 v0] d IH]; simpl; [discriminate|].
  intros H. apply andb_prop in H. destruct H as [H0 H].
  destruct (String.eqb k0 k).
  - intros [= <-]. now exists k0.
  - now apply IH.
Qed.

Lemma forallb_filter {A : Type} (P f : A -> bool) (l : list A) :
  forallb P l = true -> forallb P (filter f l) = true.
Proof.
  induction l as [|a l IH]; simpl; [reflexivity|].
  intros H. apply andb_prop in H. destruct H as [Ha H].
  destruct (f a); simpl; [rewrite Ha|]; now apply IH.
Qed.

Lemma wf_store_inv (doc : json) :
  wf_store doc = true ->
  exists db users,
    doc = JDict db
    /\ PyDict.lookup "users" db = Some (JDict users)
    /\ forallb (fun kv => wf_record (snd kv)) users = true.
Proof.
  destruct doc as [| | | | | |db]; try discriminate. simpl.
  destruct (PyDict.lookup "users" db) as [[| | | | | |users]|] eqn:Hu;
    try discriminate.
  intros H. now exists db, users.
Qed.

Lemma wf_record_inv (r : json) :
  wf_record r = true ->
  exists record pw hist items,
    r = JDict record
    /\ PyDict.lookup "password" record = Some (JStr pw)
    /\ PyDict.lookup "history" record = Some (JList hist)
    /\ PyDict.lookup "inventory" record = Some (JList items)
    /\ forallb has_id items = true.
Proof.
  destruct r as [| | | | | |record]; try discriminate. simpl.
  destruct (PyDict.lookup "password" record) as [[| | | |pw| |]|] eqn:Hp;
    try discriminate.
  destruct (PyDict.lookup "history" record) as [[| | | | |hist|]|] eqn:Hh;
    try discriminate.
  destruct (PyDict.lookup "inventory" record) as [[| | | | |items|]|] eqn:Hi;
    try discriminate.
  intros H. now exists record, pw, hist, items.
Qed.

Lemma wf_update_inventory (user : string) (db users record : list (string * json))
    (pw : string) (hist items : list json) :
  forallb (fun kv => wf_record (snd kv)) users = true ->
  PyDict.lookup "password" record = Some (JStr pw) ->
  PyDict.lookup "history" record = Some (JList hist) ->
  forallb has_id items = true ->
  wf_store (update_field user "inventory" (JList items) db users record) = true.
Proof.
  intros Hus Hp Hh Hi. unfold update_field, wf_store.
  rewrite lookup_set_same. apply forallb_set; [exact Hus| |reflexivity].
  cbn [snd wf_record].
  rewrite lookup_set_other, Hp by discriminate.
  rewrite lookup_set_other, Hh by discriminate.
  now rewrite lookup_set_same.
Qed.

Lemma wf_update_history (user : string) (db users record : list (string * json))
    (pw : string) (hist items : list json) :
  forallb (fun kv => wf_record (snd kv)) users = true ->
  PyDict.lookup "password" record = Some (JStr pw) ->
  PyDict.lookup "inventory" record = Some (JList items) ->
  forallb has_id items = true ->
  wf_store (update_field user "history" (JList hist) db users record) = true.
Proof.
  intros Hus Hp Hi Hid. unfold update_field, wf_store.
  rewrite lookup_set_same. apply forallb_set; [exact Hus| |reflexivity].
  cbn [snd wf_record].
  rewrite lookup_set_other, Hp by discriminate.
  rewrite lookup_set_same.
  now rewrite lookup_set_other, Hi by discriminate.
Qed.

Section WellFormed.
Variable w : world.
Hypothesis Hwf : wf_store (stored w) = true.

(** X3: on a store whose users are records with a password, a history
    and an inventory of items with an identifier, [register_user],
    [add_item], [delete_item] and [log_scan] (of a report with a title
    and a status) do not raise and leave such a store. *)
Theorem wf_store_kept :
  (forall u p,
     (exists r, fst (register_user u p w) = Ok r)
     /\ wf_store (stored (snd (register_user u p w))) = true)
  /\ (forall user name category qty notes,
        fst (add_item user name category qty notes w) = Ok tt
        /\ wf_store (stored (snd (add_item user name category qty notes w)))
           = true)
  /\ (forall user item_id,
        fst (delete_item user item_id w) = Ok tt
        /\ wf_store (stored (snd (delete_item user item_id w))) = true)
  /\ (forall hhmm user img_path report result status,
        PyDict.lookup "title" report = Some result ->
        PyDict.lookup "status" report = Some status ->
        fst (log_scan hhmm user img_path (JDict report) w) = Ok tt
        /\ wf_store
             (stored (snd (log_scan hhmm user img_path (JDict report) w)))
           = true).
Proof.
  destruct (wf_store_inv _ Hwf) as (db & users & Hs & Hu & Hus).
  assert (Hrec : forall user,
            PyDict.mem user users = true ->
            exists record pw hist items,
              PyDict.lookup user users = Some (JDict record)
              /\ PyDict.lookup "password" record = Some (JStr pw)
              /\ PyDict.lookup "history" record = Some (JList hist)
              /\ PyDict.lookup "inventory" record = Some (JList items)
              /\ forallb has_id items = true).
  { intros user Hm. destruct (mem_lookup _ _ Hm) as [r Hr].
    destruct (forallb_lookup _ _ _ _ Hus Hr) as [k' Hk].
    cbv beta in Hk. cbn [snd] in Hk.
    destruct (wf_record_inv _ Hk) as (record & pw & hist & items & -> & H).
    now exists record, pw, hist, items. }
  split; [|split; [|split]].
  - intros u p. destruct (PyDict.mem u users) eqn:Hm.
    + rewrite (register_user_taken w u p db users Hs Hu Hm).
      split; [now eexists | exact Hwf].
    + rewrite (register_user_new w u p db users Hs Hu Hm).
      split; [now eexists|]. cbn [snd]. rewrite stored_with_file.
      unfold wf_store. rewrite lookup_set_same.
      rewrite <- (set_absent u (fresh_record p) users Hm).
      apply forallb_set; [exact Hus|reflexivity|reflexivity].
  - intros user name category qty notes.
    destruct (PyDict.mem user users) eqn:Hm.
    + destruct (Hrec user Hm) as (record & pw & hist & items & Hr & Hp & Hh & Hi & Hid).
      rewrite (add_item_run w user db users record Hs Hu Hr _ _ _ _ items Hi).
      split; [reflexivity|]. cbn [snd]. rewrite stored_with_file.
      apply (wf_update_inventory user db users record pw hist); auto;
        cbn [forallb]; now rewrite Hid.
    + rewrite (add_item_absent w user db users Hs Hu Hm).
      split; [reflexivity | exact Hwf].
  - intros user item_id. destruct (PyDict.mem user users) eqn:Hm.
    + destruct (Hrec user Hm) as (record & pw & hist & items & Hr & Hp & Hh & Hi & Hid).
      rewrite (delete_item_run w user db users record Hs Hu Hr item_id items _
                 Hi (without_id_filter item_id items Hid)).
      split; [reflexivity|]. cbn [snd]. rewrite stored_with_file.
      apply (wf_update_inventory user db users record pw hist); auto.
      now apply forallb_filter.
    + rewrite (delete_item_absent w user db users Hs Hu Hm).
      split; [reflexivity | exact Hwf].
  - intros hhmm user img_path report result status Ht Hst.
    destruct (PyDict.mem user users) eqn:Hm.
    + destruct (Hrec user Hm) as (record & pw & hist & items & Hr & Hp & Hh & Hi & Hid).
      rewrite (log_scan_run w user db users record Hs Hu Hr hhmm img_path
                 report result status hist Hh Ht Hst).
      split; [reflexivity|]. cbn [snd]. rewrite stored_with_file.
      apply (wf_update_history user db users record pw _ items); auto.
    + rewrite (log_scan_absent w user db users Hs Hu Hm).
      split; [reflexivity | exact Hwf].
Qed.

End WellFormed.

End Shape.

(* ================================================================== *)
(** ** DataManager: reads and writes as functions of the document *)
(* ================================================================== *)

Section Documents.
Import Py DataManager Spec Effects.

Lemma verify_user_pure (u p : string) (w : world) :
  verify_user u p w = (check_password u p (stored w), w).
Proof.
  unfold verify_user, check_password. run.
  destruct (get (stored w) "users" (JDict [])) as [users|e]; [|reflexivity].
  run. destruct (contains u users) as [[|]|e]; try reflexivity.
  run. destruct (getitem users u) as [record|e]; [|reflexivity].
  run. destruct (getitem record "password") as [pw|e]; reflexivity.
Qed.

Lemma get_inventory_pure (user : string) (w : world) :
  get_inventory user w = (read_list "inventory" user (stored w), w).
Proof.
  unfold get_inventory, read_list. run.
  destruct (get (stored w) "users" (JDict [])) as [users|e]; [|reflexivity].
  run. destruct (get users user (JDict [])) as [record|e]; reflexivity.
Qed.

Lemma get_history_pure (user : string) (w : world) :
  get_history user w = (read_list "history" user (stored w), w).
Proof.
  unfold get_history, read_list. run.
  destruct (get (stored w) "users" (JDict [])) as [users|e]; [|reflexivity].
  run. destruct (get users user (JDict [])) as [record|e]; reflexivity.
Qed.


Lemma add_item_effect (w : world) (user : string)
    (name category qty notes : json) :
  field_effect user "inventory" (stored w)
    (stored (snd (add_item user name category qty notes w))).
Proof.
  unfold add_item. run.
  destruct (stored w) as [| | | | | |db] eqn:Hs; try (left; exact Hs).
  unfold getitem at 1.
  destruct (PyDict.lookup "users" db) as [users|] eqn:Hu; [|left; exact Hs].
  run. destruct (contains user users) as [[|]|e] eqn:Hc;
    run; try (left; exact Hs).
  rewrite bind_uuid4, bind_date. run.
  assert (Hs' : stored (after_draw w) = JDict db) by exact Hs.
  destruct users as [| | | | | |users];
    try (left; exact Hs').
  unfold getitem at 1.
  destruct (PyDict.lookup user users) as [record|] eqn:Hr;
    [|left; exact Hs'].
  run. destruct record as [| | | | | |record]; try (left; exact Hs').
  unfold getitem at 1.
  destruct (PyDict.lookup "inventory" record) as [inv|] eqn:Hi;
    [|left; exact Hs'].
  run. destruct inv as [| | | | |old|]; try (left; exact Hs').
  unfold insert0, setitem. run.
  right. now exists db, users, record, (JList (new_item w name category qty notes :: old)).
Qed.

Lemma delete_item_effect (w : world) (user item_id : string) :
  field_effect user "inventory" (stored w)
    (stored (snd (delete_item user item_id w))).
Proof.
  unfold delete_item. run.
  destruct (stored w) as [| | | | | |db] eqn:Hs; try (left; exact Hs).
  unfold getitem at 1.
  destruct (PyDict.lookup "users" db) as [users|] eqn:Hu; [|left; exact Hs].
  run. destruct (contains user users) as [[|]|e] eqn:Hc;
    run; try (left; exact Hs).
  destruct users as [| | | | | |users]; try (left; exact Hs).
  unfold getitem at 1.
  destruct (PyDict.lookup user users) as [record|] eqn:Hr; [|left; exact Hs].
  run. destruct record as [| | | | | |record]; try (left; exact Hs).
  unfold getitem at 1.
  destruct (PyDict.lookup "inventory" record) as [inv|] eqn:Hi;
    [|left; exact Hs].
  run. destruct (iter inv) as [items|e]; run; [|left; exact Hs].
  destruct (without_id item_id items) as [kept|e]; run; [|left; exact Hs].
  unfold setitem. run.
  right. now exists db, users, record, (JList kept).
Qed.

Lemma log_scan_effect (w : world) (hhmm user img_path : string)
    (report : json) :
  field_effect user "history" (stored w)
    (stored (snd (log_scan hhmm user img_path report w))).
Proof.
  unfold log_scan. run.
  destruct (stored w) as [| | | | | |db] eqn:Hs; try (left; exact Hs).
  unfold getitem at 1.
  destruct (PyDict.lookup "users" db) as [users|] eqn:Hu; [|left; exact Hs].
  run. destruct (contains user users) as [[|]|e] eqn:Hc;
    run; try (left; exact Hs).
  rewrite bind_date. run.
  destruct (getitem report "title") as [result|e]; run; [|left; exact Hs].
  destruct (getitem report "status") as [status|e]; run; [|left; exact Hs].
  destruct users as [| | | | | |users]; try (left; exact Hs).
  unfold getitem at 1.
  destruct (PyDict.lookup user users) as [record|] eqn:Hr; [|left; exact Hs].
  run. destruct record as [| | | | | |record]; try (left; exact Hs).
  unfold getitem at 1.
  destruct (PyDict.lookup "history" record) as [hist|] eqn:Hh;
    [|left; exact Hs].
  run. destruct hist as [| | | | |old|]; try (left; exact Hs).
  unfold insert0, setitem. run.
  right.
  now exists db, users, record,
    (JList (new_entry w hhmm img_path result status :: old)).
Qed.

End Documents.

(* ================================================================== *)
(** ** DataManager: what a write leaves alone *)
(* ================================================================== *)

Section Frames.
Import Py DataManager Spec Effects.

Lemma get_set_other {V : Type} (k k' : string) (v v0 : V)
    (d : list (string * V)) :
  k' <> k -> PyDict.get k' (PyDict.set k v d) v0 = PyDict.get k' d v0.
Proof. intros H. unfold PyDict.get. now rewrite lookup_set_other. Qed.

Lemma mem_set {V : Type} (k k' : string) (v : V) (d : list (string * V)) :
  PyDict.mem k' (PyDict.set k v d) = String.eqb k k' || PyDict.mem k' d.
Proof.
  unfold PyDict.mem. destruct (String.eqb_spec k k') as [->|Hne].
  - now rewrite lookup_set_same.
  - rewrite lookup_set_other by congruence. reflexivity.
Qed.

Section Frame.
Variables (user key : string) (v : json) (db users record : list (string * json)).
Hypothesis Hu : PyDict.lookup "users" db = Some (JDict users).
Hypothesis Hr : PyDict.lookup user users = Some (JDict record).

Lemma check_password_update (u p : string) :
  key <> "password" ->
  check_password u p (update_field user key v db users record) =
  check_password u p (JDict db).
Proof.
  intros Hk.
  assert (Hg : PyDict.get "users" db (JDict []) = JDict users)
    by (unfold PyDict.get; now rewrite Hu).
  unfold check_password, update_field, get.
  rewrite get_set_same, !Hg.
  unfold Py.contains. rewrite mem_set.
  destruct (String.eqb_spec user u) as [<-|Hne].
  - rewrite (lookup_mem _ _ _ Hr). cbn [orb]. unfold getitem at 1 3.
    rewrite lookup_set_same, Hr. unfold getitem.
    now rewrite lookup_set_other by congruence.
  - cbn [orb]. destruct (PyDict.mem u users); [|reflexivity].
    unfold getitem at 1 3. now rewrite lookup_set_other by congruence.
Qed.

Lemma read_list_update (field u : string) :
  u <> user \/ field <> key ->
  read_list field u (update_field user key v db users record) =
  read_list field u (JDict db).
Proof.
  intros H.
  assert (Hg : PyDict.get "users" db (JDict []) = JDict users)
    by (unfold PyDict.get; now rewrite Hu).
  unfold read_list, update_field, get.
  rewrite get_set_same, !Hg.
  destruct (String.eqb_spec u user) as [->|Hne].
  - destruct H as [H|H]; [congruence|].
    assert (Hg' : PyDict.get user users (JDict []) = JDict record)
      by (unfold PyDict.get; now rewrite Hr).
    rewrite get_set_same, Hg'. now rewrite get_set_other.
  - now rewrite get_set_other.
Qed.

End Frame.

Lemma check_password_effect (user key : string) (before after : json)
    (u p : string) :
  key <> "password" ->
  field_effect user key before after ->
  check_password u p after = check_password u p before.
Proof.
  intros Hk [->|(db & users & record & v & -> & Hu & Hr & ->)];
    [reflexivity|].
  now apply check_password_update.
Qed.

Lemma read_list_effect (user key : string) (before after : json)
    (field u : string) :
  u <> user \/ field <> key ->
  field_effect user key before after ->
  read_list field u after = read_list field u before.
Proof.
  intros Hk [->|(db & users & record & v & -> & Hu & Hr & ->)];
    [reflexivity|].
  now apply read_list_update.
Qed.

(** X11: [add_item], [delete_item] and [log_scan] never change what
    [verify_user] answers, for any user and password and whatever the
    store holds. *)
Theorem verify_user_unaffected (w : world) (user : string) (u p : string) :
  (forall name category qty notes,
     fst (verify_user u p (snd (add_item user name category qty notes w))) =
     fst (verify_user u p w))
  /\ (forall item_id,
        fst (verify_user u p (snd (delete_item user item_id w))) =
        fst (verify_user u p w))
  /\ (forall hhmm img_path report,
        fst (verify_user u p (snd (log_scan hhmm user img_path report w))) =
        fst (verify_user u p w)).
Proof.
  rewrite (verify_user_pure u p w).
  split; [|split]; intros; rewrite verify_user_pure; cbn [fst].
  - apply (check_password_effect user "inventory");
      [discriminate | apply add_item_effect].
  - apply (check_password_effect user "inventory");
      [discriminate | apply delete_item_effect].
  - apply (check_password_effect user "history");
      [discriminate | apply log_scan_effect].
Qed.

(** X12: [add_item], [delete_item] and [log_scan] for one user never
    change the inventory or the history of another user; the first two
    never change a history, the last never an inventory. *)
Theorem other_lists_unaffected (w : world) (user u : string)
    (name category qty notes report : json) (item_id hhmm img_path : string) :
  let w1 := snd (add_item user name category qty notes w) in
  let w2 := snd (delete_item user item_id w) in
  let w3 := snd (log_scan hhmm user img_path report w) in
  (u <> user ->
   fst (get_inventory u w1) = fst (get_inventory u w)
   /\ fst (get_inventory u w2) = fst (get_inventory u w)
   /\ fst (get_history u w3) = fst (get_history u w))
  /\ fst (get_history u w1) = fst (get_history u w)
  /\ fst (get_history u w2) = fst (get_history u w)
  /\ fst (get_inventory u w3) = fst (get_inventory u w).
Proof.
  intros w1 w2 w3. rewrite !get_inventory_pure, !get_history_pure. cbn [fst].
  pose proof (add_item_effect w user name category qty notes) as H1.
  pose proof (delete_item_effect w user item_id) as H2.
  pose proof (log_scan_effect w hhmm user img_path report) as H3.
  split; [intros Hne; split; [|split]|split; [|split]].
  - apply (read_list_effect user "inventory"); [now left | exact H1].
  - apply (read_list_effect user "inventory"); [now left | exact H2].
  - apply (read_list_effect user "history"); [now left | exact H3].
  - apply (read_list_effect user "inventory"); [right; discriminate | exact H1].
  - apply (read_list_effect user "inventory"); [right; discriminate | exact H2].
  - apply (read_list_effect user "history"); [right; discriminate | exact H3].
Qed.

Lemma register_user_effect (w : world) (u p : string) :
  register_effect u p (stored w) (stored (snd (register_user u p w))).
Proof.
  unfold register_user. run.
  destruct (stored w) as [| | | | | |db] eqn:Hs; try (left; exact Hs).
  unfold getitem at 1.
  destruct (PyDict.lookup "users" db) as [users|] eqn:Hu; [|left; exact Hs].
  run. destruct (contains u users) as [[|]|e] eqn:Hc;
    run; try (left; exact Hs).
  destruct users as [| | | | | |users]; try (left; exact Hs).
  unfold setitem. run. right. now exists db, users.
Qed.

Lemma register_user_frame (w : world) (u p u' : string) :
  u' <> u ->
  (forall p', check_password u' p' (stored (snd (register_user u p w))) =
              check_password u' p' (stored w))
  /\ (forall field,
        read_list field u' (stored (snd (register_user u p w))) =
        read_list field u' (stored w)).
Proof.
  intros Hne.
  destruct (register_user_effect w u p) as [->|(db & users & Hs & Hu & ->)];
    [split; reflexivity|].
  rewrite Hs.
  assert (Hg : PyDict.get "users" db (JDict []) = JDict users)
    by (unfold PyDict.get; now rewrite Hu).
  split.
  - intros p'. unfold check_password, get. rewrite get_set_same, Hg.
    unfold Py.contains. rewrite mem_set.
    destruct (String.eqb_spec u u'); [congruence|]. cbn [orb].
    destruct (PyDict.mem u' users); [|reflexivity].
    unfold getitem at 1 3. now rewrite lookup_set_other.
  - intros field. unfold read_list, get. rewrite get_set_same, Hg.
    now rewrite get_set_other.
Qed.

(** X13: [register_user] of one name never changes what [verify_user]
    answers for another name, nor the inventory or history of
    another. *)
Theorem register_user_keeps_others (w : world) (u p u' : string) :
  u' <> u ->
  (forall p', fst (verify_user u' p' (snd (register_user u p w))) =
              fst (verify_user u' p' w))
  /\ fst (get_inventory u' (snd (register_user u p w))) =
     fst (get_inventory u' w)
  /\ fst (get_history u' (snd (register_user u p w))) =
     fst (get_history u' w).
Proof.
  intros Hne. destruct (register_user_frame w u p u' Hne) as [Hc Hl].
  rewrite !get_inventory_pure, !get_history_pure. cbn [fst].
  split; [|split; apply Hl].
  intros p'. rewrite !verify_user_pure. apply Hc.
Qed.

End Frames.

(* ================================================================== *)
(** ** Stores that are not objects, and the handlers of the App *)
(* ================================================================== *)

Section Handlers.
Import Py DataManager Spec Effects.

(** X2: a store file that parses to a list or a string in which
    "users" is found passes [_ensure_db] unchanged, after which
    [register_user] raises TypeError and [verify_user] and
    [get_inventory] raise AttributeError. *)
Theorem non_object_store_accepted (w : world) (doc : json) (u p : string) :
  file w = Holds doc ->
  contains "users" doc = Ok true ->
  (forall d, doc <> JDict d) ->
  _ensure_db w = (Ok tt, w)
  /\ register_user u p w = (Raise TypeError, w)
  /\ verify_user u p w = (Raise AttributeError, w)
  /\ get_inventory u w = (Raise AttributeError, w).
Proof.
  intros Hf Hc Hd.
  assert (Hs : stored w = doc) by (unfold stored; now rewrite Hf).
  split.
  { rewrite ensure_db_cases, Hf. unfold repaired. now rewrite Hc. }
  rewrite verify_user_pure, get_inventory_pure. unfold register_user. run.
  rewrite Hs. destruct doc as [| | | |s|l|d]; try discriminate.
  - repeat split.
  - repeat split.
  - now destruct (Hd d).
Qed.

Section AppFacts.
Import App.

(** X14: the registration handler tests the pair that [register_user]
    returns, which is true as a pair: whenever [register_user] returns
    it shows "Registered!" and goes to the login view, also for a user
    name that is taken, where the store is left as it is; it never shows
    the error box. *)
Theorem register_reports_success (w : world) (a : app) (ru rp : string) :
  (forall r w',
     register_user ru rp w = (Ok r, w') ->
     register ru rp a w =
       (Ok (a, [ShowInfo "Success" "Registered!"; ShowLogin]), w'))
  /\ (forall db users,
        stored w = JDict db ->
        PyDict.lookup "users" db = Some (JDict users) ->
        PyDict.mem ru users = true ->
        register ru rp a w =
          (Ok (a, [ShowInfo "Success" "Registered!"; ShowLogin]), w))
  /\ (forall a' title message,
        fst (register ru rp a w) <> Ok (a', [ShowError title message])).
Proof.
  split; [|split].
  - intros r w' H. unfold register, bind. now rewrite H.
  - intros db users Hs Hu Hm. unfold register, bind.
    now rewrite (register_user_taken w ru rp db users Hs Hu Hm).
  - intros a' title message. unfold register, bind.
    destruct (register_user ru rp w) as [[r|e] w']; discriminate.
Qed.

(** X15: the login handler sets the user and opens the dashboard
    exactly when the store has the user name with the hash of the
    password given; when [verify_user] answers false it shows
    "Invalid Login" and keeps the user field; it never writes. *)
Theorem login_spec (w : world) (a : app) (u p : string) :
  (fst (login u p a w) = Ok ({| user := Some u |}, [Dashboard]) <->
   exists db users record,
     stored w = JDict db
     /\ PyDict.lookup "users" db = Some (JDict users)
     /\ PyDict.lookup u users = Some (JDict record)
     /\ PyDict.lookup "password" record = Some (JStr (_hash p)))
  /\ (fst (verify_user u p w) = Ok false ->
      login u p a w = (Ok (a, [ShowError "Error" "Invalid Login"]), w))
  /\ snd (login u p a w) = w.
Proof.
  pose proof (verify_user_true w u p) as Htrue.
  unfold login, bind. rewrite verify_user_pure in *. cbn [fst] in Htrue.
  destruct (check_password u p (stored w)) as [[|]|e]; cbn [fst snd].
  - split; [|split]; [|discriminate|reflexivity].
    split; [intros _; now apply Htrue | reflexivity].
  - split; [|split]; [|reflexivity|reflexivity].
    split; [discriminate|]. intros H. apply Htrue in H. discriminate.
  - split; [|split]; [|discriminate|reflexivity].
    split; [discriminate|]. intros H. apply Htrue in H. discriminate.
Qed.

End AppFacts.

End Handlers.

(* ================================================================== *)
(** ** The hash and the cleaned label *)
(* ================================================================== *)

Section HashAndLabel.
Import Py DataManager Spec Effects PyStr KnowledgeBase.

Lemma length_app (a b : string) :
  String.length (a ++ b) = (String.length a + String.length b)%nat.
Proof. induction a as [|c a IH]; simpl; [reflexivity | now rewrite IH]. Qed.

Lemma all_hex_app (a b : string) :
  all_hex (a ++ b) = all_hex a && all_hex b.
Proof.
  induction a as [|c a IH]; simpl; [reflexivity|].
  now rewrite IH, andb_assoc.
Qed.

Lemma hex_digit_is_hex (n : Z) :
  0 <= n < 16 -> is_hex (Sha256.hex_digit n) = true.
Proof.
  intros H.
  assert (Hall : forallb (fun k => is_hex (Sha256.hex_digit (Z.of_nat k)))
                   (seq 0 16) = true) by reflexivity.
  rewrite forallb_forall in Hall.
  rewrite <- (Z2Nat.id n) by lia. apply Hall, in_seq. lia.
Qed.

Lemma hex_shape (k : nat) (n : Z) :
  String.length (Sha256.hex k n) = k /\ all_hex (Sha256.hex k n) = true.
Proof.
  induction k as [|k [IHl IHh]]; [split; reflexivity|].
  cbn [Sha256.hex String.length all_hex]. rewrite IHl, IHh.
  split; [reflexivity|]. rewrite andb_true_r.
  apply hex_digit_is_hex, Z.mod_pos_bound. lia.
Qed.

(** X16: [_hash] gives 64 characters, each a digit or a letter from a
    to f, so that it differs from the text hashed unless that has 64
    characters. *)
Theorem hash_is_64_hex (text : string) :
  String.length (_hash text) = 64%nat
  /\ all_hex (_hash text) = true
  /\ (String.length text <> 64%nat -> _hash text <> text).
Proof.
  assert (H : String.length (_hash text) = 64%nat
              /\ all_hex (_hash text) = true).
  { unfold _hash, Sha256.hexdigest.
    destruct (Sha256.digest (Sha256.bytes_of text))
      as [[[[[[[a b] c] d] e] f] g] h].
    rewrite !length_app, !all_hex_app.
    rewrite !(proj1 (hex_shape 8 _)), !(proj2 (hex_shape 8 _)).
    split; reflexivity. }
  destruct H as [Hl Hh]. split; [exact Hl|]. split; [exact Hh|].
  intros Hne Heq. rewrite Heq in Hl. contradiction.
Qed.

Lemma replace_absent (old new : ascii) (s : string) :
  has_char old s = false -> replace old new s = s.
Proof.
  induction s as [|c s IH]; simpl; [reflexivity|].
  intros H. apply orb_false_elim in H. destruct H as [Hc H].
  now rewrite Hc, IH.
Qed.

Lemma lstrip_fixed (s : string) :
  starts_with_space s = false -> lstrip s = s.
Proof. destruct s as [|c s]; simpl; [reflexivity | now intros ->]. Qed.

Lemma rstrip_fixed (s : string) :
  ends_with_space s = false -> rstrip s = s.
Proof.
  induction s as [|c s IH]; [reflexivity|].
  cbn [ends_with_space rstrip]. destruct s as [|c' s].
  - cbn [rstrip]. now intros ->.
  - intros H. now rewrite (IH H).
Qed.

Lemma clean_label_shape (raw_label : string) :
  has_char "_" (clean_label raw_label) = false
  /\ starts_with_space (clean_label raw_label) = false
  /\ ends_with_space (clean_label raw_label) = false.
Proof.
  split.
  - unfold clean_label, strip.
    destruct (has_char "_" (rstrip (lstrip (replace "_" " " raw_label))))
      eqn:E; [|reflexivity].
    apply has_char_rstrip, has_char_lstrip in E.
    rewrite has_char_replace in E; [discriminate|].
    intros H. discriminate H.
  - unfold clean_label.
    destruct (strip_spec (replace "_" " " raw_label))
      as (l & r & _ & _ & _ & Hl & Hr).
    now split.
Qed.

(** X17: the cleaned label has no underscore and no white space at
    its ends, cleaning it again changes nothing, and the report of the
    cleaned label is the report of the label; the title holds no
    underscore. *)
Theorem generate_report_normal_form (raw_label : string) (confidence : float) :
  clean_label (clean_label raw_label) = clean_label raw_label
  /\ generate_report (clean_label raw_label) confidence =
     generate_report raw_label confidence
  /\ has_char "_" (clean_label raw_label) = false
  /\ starts_with_space (clean_label raw_label) = false
  /\ ends_with_space (clean_label raw_label) = false
  /\ has_char "_" (title (generate_report raw_label confidence)) = false.
Proof.
  destruct (clean_label_shape raw_label) as (Hu & Hl & Hr).
  assert (Hidem : clean_label (clean_label raw_label) = clean_label raw_label).
  { unfold clean_label at 1, strip.
    now rewrite (replace_absent _ _ _ Hu), (lstrip_fixed _ Hl),
      (rstrip_fixed _ Hr). }
  split; [exact Hidem|]. split.
  { unfold generate_report, is_healthy, info, key_match. now rewrite Hidem. }
  split; [exact Hu|]. split; [exact Hl|]. split; [exact Hr|].
  cbn [generate_report title].
  destruct (is_healthy raw_label); rewrite !has_char_app, Hu; reflexivity.
Qed.

End HashAndLabel.

(* ================================================================== *)
(** ** DataManager._ensure_db when the disk or the console fails *)
(* ================================================================== *)

Section FaultFacts.
Import Py DataManager Spec Effects.

Lemma faults_none_save (can_print : string -> bool) (data : json) (w : world) :
  Faults._save None can_print data w = _save data w.
Proof. reflexivity. Qed.

Lemma faults_none_register (can_print : string -> bool) (u p : string)
    (w : world) :
  Faults.register_user None can_print u p w = register_user u p w.
Proof. reflexivity. Qed.

Lemma faults_none_ensure_db (can_print : string -> bool) (w : world) :
  can_print Faults.repairing = true ->
  can_print Faults.resetting = true ->
  Faults._ensure_db None can_print w = _ensure_db w.
Proof.
  intros Hr Hc. unfold Faults._ensure_db, Faults.print.
  rewrite Hr, Hc. reflexivity.
Qed.

Lemma faults_refused_save (reason : string) (can_print : string -> bool)
    (data : json) (w : world) :
  can_print ("DB Save Error: " ++ reason) = true ->
  Faults._save (Some reason) can_print data w = (Ok tt, w).
Proof.
  intros H. unfold Faults._save, try_except, Faults.write_json, Faults.print,
    lift. now rewrite H.
Qed.

Lemma faults_refused_register (reason : string) (can_print : string -> bool)
    (u p : string) (w : world) (db users : list (string * json)) :
  can_print ("DB Save Error: " ++ reason) = true ->
  stored w = JDict db ->
  PyDict.lookup "users" db = Some (JDict users) ->
  PyDict.mem u users = false ->
  Faults.register_user (Some reason) can_print u p w =
  (Ok (true, "Success"), w).
Proof.
  intros Hp Hs Hu Hm. unfold Faults.register_user. run.
  rewrite Hs. unfold getitem at 1. rewrite Hu. run.
  unfold contains. run. rewrite Hm. cbv iota.
  unfold setitem. run. unfold bind at 1.
  now rewrite (faults_refused_save _ _ _ _ Hp).
Qed.

(** X1: with a disk that takes the writes and a console that prints the
    two warnings, [_ensure_db] is the one of the model without faults:
    it returns, the file exists afterwards with "users" found in it, and
    running it again changes nothing.  With a fault it is otherwise:
    when the disk refuses the writes, a missing file is left missing,
    and a file that holds a value in which nothing can be looked for
    makes it raise TypeError, from [register_user] in the handler; when
    the console cannot print the warnings, a store without "users" makes
    it raise UnicodeEncodeError, from [print] in the handler. *)
Theorem ensure_db_raises_on_faults (refusal : option string)
    (can_print : string -> bool) (w : world) :
  let run := Faults._ensure_db refusal can_print in
  (refusal = None ->
   can_print Faults.repairing = true ->
   can_print Faults.resetting = true ->
   run w = _ensure_db w
   /\ fst (run w) = Ok tt
   /\ file (snd (run w)) <> Missing
   /\ contains "users" (stored (snd (run w))) = Ok true
   /\ run (snd (run w)) = (Ok tt, snd (run w)))
  /\ (forall reason,
        refusal = Some reason ->
        can_print ("DB Save Error: " ++ reason) = true ->
        file w = Missing ->
        run w = (Ok tt, w))
  /\ (forall reason doc e,
        refusal = Some reason ->
        can_print ("DB Save Error: " ++ reason) = true ->
        can_print Faults.resetting = true ->
        file w = Holds doc ->
        contains "users" doc = Raise e ->
        run w = (Raise TypeError, w))
  /\ (forall doc,
        can_print Faults.repairing = false ->
        can_print Faults.resetting = false ->
        file w = Holds doc ->
        contains "users" doc = Ok false ->
        run w = (Raise UnicodeEncodeError, w)).
Proof.
  intros run. subst run. split; [|split; [|split]].
  - intros -> Hr Hc.
    assert (E : forall w', Faults._ensure_db None can_print w' = _ensure_db w')
      by (intros w'; now apply faults_none_ensure_db).
    rewrite !E.
    destruct (ensure_db_total_idempotent w) as (H1 & H2 & H3 & H4). auto.
  - intros reason -> Hp Hf. unfold Faults._ensure_db, bind at 1, path_exists.
    rewrite Hf. cbv beta iota. change (negb false) with true. cbv iota.
    unfold bind at 1. rewrite (faults_refused_save _ _ _ _ Hp).
    assert (Hs : stored w = empty_store) by (unfold stored; now rewrite Hf).
    unfold bind at 1.
    now rewrite (faults_refused_register reason can_print "admin" "admin" w
                   [("users", JDict [])] [] Hp Hs eq_refl eq_refl).
  - intros reason doc e -> Hp Hc Hf Hu.
    assert (Hs : stored w = doc) by (unfold stored; now rewrite Hf).
    unfold Faults._ensure_db, bind at 1, path_exists.
    rewrite Hf. cbv beta iota. change (negb true) with false. cbv iota.
    unfold try_except at 1. run. rewrite Hs, Hu. run.
    unfold Faults.print. rewrite Hc. run.
    unfold bind at 1. rewrite (faults_refused_save _ _ _ _ Hp).
    unfold bind at 1, Faults.register_user. run. rewrite Hs.
    destruct doc; try discriminate Hu; reflexivity.
  - intros doc Hr Hc Hf Hu.
    assert (Hs : stored w = doc) by (unfold stored; now rewrite Hf).
    unfold Faults._ensure_db, bind at 1, path_exists.
    rewrite Hf. cbv beta iota. change (negb true) with false. cbv iota.
    unfold try_except at 1. run. rewrite Hs, Hu. run.
    change (negb false) with true. cbv iota.
    unfold Faults.print. rewrite Hr, Hc. run. reflexivity.
Qed.

End FaultFacts.

(* ================================================================== *)
(** ** Runs on sample stores *)
(* ================================================================== *)

Section SampleRuns.
Import Py DataManager Spec Effects.

Lemma non_object_store_accepted_witness :
  let w := sample_world (Holds (JList [JStr "users"])) in
  contains "users" (JList [JStr "users"]) = Ok true
  /\ _ensure_db w = (Ok tt, w)
  /\ register_user "alice" "x" w = (Raise TypeError, w)
  /\ verify_user "alice" "x" w = (Raise AttributeError, w).
Proof.
  intros w. split; [reflexivity|].
  assert (Hd : forall d, JList [JStr "users"] <> JDict d)
    by (intros d H; discriminate H).
  destruct (non_object_store_accepted w (JList [JStr "users"]) "alice" "x"
              eq_refl eq_refl Hd) as (He & Hr & Hv & _).
  split; [exact He|]. split; [exact Hr | exact Hv].
Defined.

Lemma wf_store_kept_witness :
  let w := sample_world (Holds two_users_store) in
  wf_store (stored w) = true
  /\ wf_store fresh_store = true
  /\ fst (add_item "alice" (JStr "Neem oil") (JStr "Fertilizer") (JStr "2")
            (JStr "weekly") w) = Ok tt
  /\ wf_store (stored (snd (delete_item "alice" "aaaa1111" w))) = true.
Proof.
  intros w. split; [reflexivity|]. split; [reflexivity|].
  pose proof (wf_store_kept w eq_refl) as (_ & Ha & Hd & _).
  split.
  - exact (proj1 (Ha "alice" (JStr "Neem oil") (JStr "Fertilizer") (JStr "2")
                    (JStr "weekly"))).
  - exact (proj2 (Hd "alice" "aaaa1111")).
Defined.

Lemma delete_item_then_get_inventory_witness :
  let w := sample_world (Holds two_users_store) in
  stored w = two_users_store
  /\ forallb has_id alice_items = true
  /\ fst ((delete_item "alice" "aaaa1111" ;; get_inventory "alice") w) =
     Ok (JList [item_with "bbbb2222" "Tool"]).
Proof.
  intros w. split; [reflexivity|]. split; [reflexivity|].
  exact (proj2 (delete_item_then_get_inventory w "alice" _ two_users
                  alice_record alice_items eq_refl eq_refl eq_refl eq_refl
                  eq_refl "aaaa1111")).
Defined.

Lemma delete_item_absent_id_witness :
  let w := sample_world (Holds two_users_store) in
  forallb (fun i => negb (id_is "cccc3333" i)) alice_items = true
  /\ delete_item "alice" "cccc3333" w = (Ok tt, w).
Proof.
  intros w. split; [reflexivity|].
  exact (delete_item_absent_id w "alice" _ two_users alice_record alice_items
           eq_refl eq_refl eq_refl eq_refl eq_refl "cccc3333" eq_refl).
Defined.

Lemma add_item_then_delete_item_witness :
  let w := sample_world (Holds two_users_store) in
  forallb (fun i => negb (id_is "3f2b8c1e" i)) alice_items = true
  /\ fst ((add_item "alice" (JStr "Neem oil") (JStr "Fertilizer") (JStr "2")
             (JStr "weekly") ;;
           delete_item "alice" "3f2b8c1e" ;;
           get_inventory "alice") w) = Ok (JList alice_items).
Proof.
  intros w. split; [reflexivity|].
  exact (proj2 (add_item_then_delete_item w "alice" _ two_users alice_record
                  alice_items eq_refl eq_refl eq_refl eq_refl eq_refl
                  (JStr "Neem oil") (JStr "Fertilizer") (JStr "2")
                  (JStr "weekly")) eq_refl).
Defined.

Lemma log_scan_then_get_history_witness :
  let w := sample_world (Holds two_users_store) in
  stored w = two_users_store
  /\ fst ((log_scan "14:05" "alice" "/home/alice/scans/leaf_02.jpg"
             (JDict [("title", JStr "t"); ("status", JStr "Infected")]) ;;
           get_history "alice") w) =
     Ok (JList (JDict [("date", JStr "2026-11-03 14:05");
                       ("file", JStr "leaf_02.jpg");
                       ("result", JStr "t");
                       ("status", JStr "Infected")] :: alice_history)).
Proof.
  intros w. split; [reflexivity|].
  exact (proj1 (proj2
    (log_scan_then_get_history w "alice" _ two_users alice_record
       alice_history eq_refl eq_refl eq_refl eq_refl "14:05"
       "/home/alice/scans/leaf_02.jpg"
       [("title", JStr "t"); ("status", JStr "Infected")]
       (JStr "t") (JStr "Infected") eq_refl eq_refl))).
Defined.

Lemma log_scan_missing_key_witness :
  let w := sample_world (Holds two_users_store) in
  PyDict.mem "status" [("title", JStr "t")] = false
  /\ log_scan "14:05" "alice" "leaf.jpg" (JDict [("title", JStr "t")]) w =
     (Raise KeyError, w).
Proof.
  intros w. split; [reflexivity|].
  exact (log_scan_missing_key w "alice" _ two_users alice_record
           eq_refl eq_refl eq_refl "14:05" "leaf.jpg" [("title", JStr "t")]
           (or_intror eq_refl)).
Defined.

Lemma log_scan_generated_report_witness :
  let w := sample_world (Holds two_users_store) in
  stored w = two_users_store
  /\ fst ((log_scan "14:05" "alice" "leaf.jpg"
             (App.report_dict
                (KnowledgeBase.generate_report "Tomato___Late_blight" 0.93)) ;;
           get_history "alice") w) =
     Ok (JList (JDict [("date", JStr "2026-11-03 14:05");
                       ("file", JStr "leaf.jpg");
                       ("result", JStr "⚠️ Tomato   Late blight");
                       ("status", JStr "Infected")] :: alice_history)).
Proof.
  intros w. split; [reflexivity|].
  exact (log_scan_generated_report w "alice" _ two_users alice_record
           alice_history eq_refl eq_refl eq_refl eq_refl "14:05" "leaf.jpg"
           "Tomato___Late_blight" 0.93%float).
Defined.

Lemma unknown_user_noop_witness :
  let w := sample_world Missing in
  stored w = empty_store
  /\ PyDict.mem "alice" ([] : list (string * json)) = false
  /\ add_item "alice" (JStr "Neem oil") (JStr "Fertilizer") (JStr "2")
       (JStr "weekly") w = (Ok tt, w)
  /\ get_inventory "alice" w = (Ok (JList []), w).
Proof.
  intros w. split; [reflexivity|]. split; [reflexivity|].
  destruct (unknown_user_noop w "alice" _ [] eq_refl eq_refl eq_refl
              (JStr "Neem oil") (JStr "Fertilizer") (JStr "2") (JStr "weekly")
              JNull "aaaa1111" "14:05" "leaf.jpg")
    as (Ha & _ & _ & Hi & _).
  split; [exact Ha | exact Hi].
Defined.

Lemma other_lists_unaffected_witness :
  let w := sample_world (Holds two_users_store) in
  "admin" <> "alice"
  /\ fst (get_inventory "admin"
            (snd (add_item "alice" (JStr "n") (JStr "Seed") (JStr "1")
                    (JStr "") w))) = fst (get_inventory "admin" w).
Proof.
  intros w.
  assert (Hne : "admin" <> "alice") by discriminate.
  split; [exact Hne|].
  exact (proj1 (proj1 (other_lists_unaffected w "alice" "admin" (JStr "n")
                         (JStr "Seed") (JStr "1") (JStr "") JNull "" "" "")
                  Hne)).
Defined.

Lemma register_user_keeps_others_witness :
  let w := sample_world (Holds two_users_store) in
  "alice" <> "bob"
  /\ fst (verify_user "alice" "x" (snd (register_user "bob" "y" w))) =
     fst (verify_user "alice" "x" w).
Proof.
  intros w.
  assert (Hne : "alice" <> "bob") by discriminate.
  split; [exact Hne|].
  exact (proj1 (register_user_keeps_others w "bob" "y" "alice" Hne) "x").
Defined.

Lemma register_reports_success_witness :
  let w := sample_world (Holds two_users_store) in
  let a := {| App.user := None |} in
  PyDict.mem "alice" two_users = true
  /\ register_user "alice" "other" w = (Ok (false, "Username taken"), w)
  /\ App.register "alice" "other" a w =
     (Ok (a, [App.ShowInfo "Success" "Registered!"; App.ShowLogin]), w).
Proof.
  intros w a. split; [reflexivity|].
  assert (Ht : register_user "alice" "other" w =
               (Ok (false, "Username taken"), w)) by reflexivity.
  split; [exact Ht|].
  exact (proj1 (register_reports_success w a "alice" "other") _ _ Ht).
Defined.

Lemma login_spec_witness :
  let w := sample_world (Holds two_users_store) in
  let a := {| App.user := None |} in
  fst (verify_user "alice" "wrong" w) = Ok false
  /\ App.login "alice" "wrong" a w =
     (Ok (a, [App.ShowError "Error" "Invalid Login"]), w)
  /\ fst (App.login "alice" "x" a w) =
     Ok ({| App.user := Some "alice" |}, [App.Dashboard]).
Proof.
  intros w a.
  assert (Hf : fst (verify_user "alice" "wrong" w) = Ok false)
    by (vm_compute; reflexivity).
  split; [exact Hf|]. split.
  - exact (proj1 (proj2 (login_spec w a "alice" "wrong")) Hf).
  - apply (proj2 (proj1 (login_spec w a "alice" "x"))).
    exists [("users", JDict two_users)], two_users, alice_record.
    repeat split.
Defined.

Lemma hash_is_64_hex_witness :
  String.length "admin" <> 64%nat /\ _hash "admin" <> "admin".
Proof.
  assert (H : String.length "admin" <> 64%nat) by discriminate.
  split; [exact H|].
  exact (proj2 (proj2 (hash_is_64_hex "admin")) H).
Defined.

Lemma ensure_db_raises_on_faults_witness :
  let refused := Some "[Errno 13] Permission denied" in
  let ascii_only :=
    fun msg => forallb (fun c => (nat_of_ascii c <? 128)%nat)
                 (list_ascii_of_string msg) in
  let w := sample_world (Holds JNull) in
  let w' := sample_world (Holds (JDict [])) in
  contains "users" JNull = Raise TypeError
  /\ Faults._ensure_db refused (fun _ => true) w = (Raise TypeError, w)
  /\ Faults._ensure_db refused (fun _ => true) (sample_world Missing) =
     (Ok tt, sample_world Missing)
  /\ ascii_only Faults.repairing = false
  /\ Faults._ensure_db None ascii_only w' = (Raise UnicodeEncodeError, w')
  /\ Faults._ensure_db None (fun _ => true) w = _ensure_db w.
Proof.
  intros refused ascii_only w w'. split; [reflexivity|].
  pose proof (ensure_db_raises_on_faults refused (fun _ => true) w)
    as (_ & _ & Hnull & _).
  pose proof (ensure_db_raises_on_faults refused (fun _ => true)
                (sample_world Missing)) as (_ & Hmiss & _).
  pose proof (ensure_db_raises_on_faults None ascii_only w')
    as (_ & _ & _ & Hcons).
  pose proof (ensure_db_raises_on_faults None (fun _ => true) w)
    as (Hnone & _).
  split; [exact (Hnull _ JNull TypeError eq_refl eq_refl eq_refl eq_refl
                   eq_refl)|].
  split; [exact (Hmiss _ eq_refl eq_refl eq_refl)|].
  split; [reflexivity|].
  split; [exact (Hcons (JDict []) eq_refl eq_refl eq_refl eq_refl)|].
  exact (proj1 (Hnone eq_refl eq_refl eq_refl)).
Defined.

End SampleRuns.

(* ================================================================== *)
(** ** When the administrator is created *)
(* ================================================================== *)

Section EnsureDbAdmin.
Import Py DataManager Spec Effects.

(** On the two paths that reset the store, it is left with the
    administrator alone. *)
Lemma ensure_db_reset_paths (w : world) :
  file w = Missing
  \/ (exists doc e, file w = Holds doc /\ contains "users" doc = Raise e) ->
  stored (snd (_ensure_db w)) = fresh_store
  /\ wf_store (stored (snd (_ensure_db w))) = true
  /\ fst (verify_user "admin" "admin" (snd (_ensure_db w))) = Ok true
  /\ forall u p, u <> "admin" ->
       fst (verify_user u p (snd (_ensure_db w))) = Ok false.
Proof.
  intros H.
  assert (Hs : stored (snd (_ensure_db w)) = fresh_store).
  { rewrite ensure_db_cases. cbn [snd].
    destruct H as [->|(doc & e & -> & Hc)]; [reflexivity|].
    unfold repaired. now rewrite Hc. }
  split; [exact Hs|]. split; [now rewrite Hs|].
  assert (Hv : forall u p,
            fst (verify_user u p (snd (_ensure_db w))) =
            match PyDict.lookup u [("admin", fresh_record "admin")] with
            | None => Ok false
            | Some record =>
                match getitem record "password" with
                | Ok pw => Ok (eq_str pw (_hash p))
                | Raise e => Raise e
                end
            end).
  { intros u p.
    now rewrite (verify_user_run _ u p
                   [("users", JDict [("admin", fresh_record "admin")])]
                   [("admin", fresh_record "admin")] Hs eq_refl). }
  split.
  - rewrite Hv.
    change (Ok (String.eqb (_hash "admin") (_hash "admin")) = Ok true).
    now rewrite String.eqb_refl.
  - intros u p Hne. rewrite Hv. cbn [PyDict.lookup].
    destruct (String.eqb_spec "admin" u); [congruence | reflexivity].
Qed.

(** On every other path nobody is registered: the document left is the
    one found, the one found put under "users", or the empty store, and
    what [verify_user] accepts afterwards was in the file with that
    hash. *)
Lemma ensure_db_other_paths (w : world) :
  file w = Unparseable
  \/ (exists doc b, file w = Holds doc /\ contains "users" doc = Ok b) ->
  (stored (snd (_ensure_db w)) = stored w
   \/ (exists doc, file w = Holds doc
                   /\ stored (snd (_ensure_db w)) = JDict [("users", doc)])
   \/ stored (snd (_ensure_db w)) = empty_store)
  /\ forall u p,
       fst (verify_user u p (snd (_ensure_db w))) = Ok true ->
       exists doc users record,
         file w = Holds doc
         /\ (doc = JDict users
             \/ exists db, doc = JDict db
                           /\ PyDict.lookup "users" db = Some (JDict users))
         /\ PyDict.lookup u users = Some (JDict record)
         /\ PyDict.lookup "password" record = Some (JStr (_hash p)).
Proof.
  intros H. rewrite ensure_db_cases. cbn [snd].
  destruct H as [Hf|(doc & b & Hf & Hc)]; rewrite Hf.
  - split; [now left|]. intros u p Hv.
    apply verify_user_true in Hv.
    destruct Hv as (db & users & record & Hs & Hu & Hr & _).
    unfold stored in Hs. rewrite Hf in Hs. injection Hs as <-.
    injection Hu as <-. discriminate Hr.
  - unfold repaired. rewrite Hc. destruct b.
    + split; [now left|]. intros u p Hv.
      apply verify_user_true in Hv.
      destruct Hv as (db & users & record & Hs & Hu & Hr & Hp).
      unfold stored in Hs. rewrite Hf in Hs.
      exists doc, users, record. split; [reflexivity|].
      split; [right; now exists db | now split].
    + destruct (contains "admin" doc) as [[|]|e].
      * split; [right; left; now exists doc|]. intros u p Hv.
        apply verify_user_true in Hv.
        destruct Hv as (db & users & record & Hs & Hu & Hr & Hp).
        rewrite stored_with_file in Hs. injection Hs as <-.
        cbn in Hu. injection Hu as ->.
        exists (JDict users), users, record. split; [reflexivity|].
        split; [now left | now split].
      * split; [now right; right|]. intros u p Hv.
        apply verify_user_true in Hv.
        destruct Hv as (db & users & record & Hs & Hu & Hr & _).
        rewrite stored_with_file in Hs. injection Hs as <-.
        injection Hu as <-. discriminate Hr.
      * split; [now right; right|]. intros u p Hv.
        apply verify_user_true in Hv.
        destruct Hv as (db & users & record & Hs & Hu & Hr & _).
        rewrite stored_with_file in Hs. injection Hs as <-.
        injection Hu as <-. discriminate Hr.
Qed.

(** X18: [_ensure_db] registers the administrator on its two reset
    paths, with no file or with a file that holds a value in which
    nothing can be looked for: the store is then the administrator
    alone, whose password "admin" is verified, and no other name is.  On
    every other path it registers nobody: the document it leaves is the
    one found, the one found put under "users", or the empty store, and
    every name and password that [verify_user] accepts afterwards was
    recorded in the file with that hash. *)
Theorem ensure_db_creates_admin (w : world) :
  (file w = Missing
   \/ (exists doc e, file w = Holds doc /\ contains "users" doc = Raise e) ->
   stored (snd (_ensure_db w)) = fresh_store
   /\ wf_store (stored (snd (_ensure_db w))) = true
   /\ fst (verify_user "admin" "admin" (snd (_ensure_db w))) = Ok true
   /\ forall u p, u <> "admin" ->
        fst (verify_user u p (snd (_ensure_db w))) = Ok false)
  /\ (file w = Unparseable
      \/ (exists doc b, file w = Holds doc /\ contains "users" doc = Ok b) ->
      (stored (snd (_ensure_db w)) = stored w
       \/ (exists doc, file w = Holds doc
                       /\ stored (snd (_ensure_db w)) = JDict [("users", doc)])
       \/ stored (snd (_ensure_db w)) = empty_store)
      /\ forall u p,
           fst (verify_user u p (snd (_ensure_db w))) = Ok true ->
           exists doc users record,
             file w = Holds doc
             /\ (doc = JDict users
                 \/ exists db, doc = JDict db
                               /\ PyDict.lookup "users" db
                                  = Some (JDict users))
             /\ PyDict.lookup u users = Some (JDict record)
             /\ PyDict.lookup "password" record = Some (JStr (_hash p))).
Proof.
  split; [apply ensure_db_reset_paths | apply ensure_db_other_paths].
Qed.

Lemma ensure_db_creates_admin_witness :
  let w := sample_world (Holds (JInt 42)) in
  let w' := sample_world (Holds legacy_doc) in
  contains "users" (JInt 42) = Raise TypeError
  /\ stored (snd (_ensure_db w)) = fresh_store
  /\ fst (verify_user "admin" "admin" (snd (_ensure_db w))) = Ok true
  /\ contains "users" legacy_doc = Ok false
  /\ (stored (snd (_ensure_db w')) = stored w'
      \/ (exists doc, file w' = Holds doc
                      /\ stored (snd (_ensure_db w')) = JDict [("users", doc)])
      \/ stored (snd (_ensure_db w')) = empty_store).
Proof.
  intros w w'. split; [reflexivity|].
  destruct (proj1 (ensure_db_creates_admin w)
              (or_intror (ex_intro _ (JInt 42)
                 (ex_intro _ TypeError (conj eq_refl eq_refl)))))
    as (Hs & _ & Hv & _).
  split; [exact Hs|]. split; [exact Hv|]. split; [reflexivity|].
  exact (proj1 (proj2 (ensure_db_creates_admin w')
                  (or_intror (ex_intro _ legacy_doc
                     (ex_intro _ false (conj eq_refl eq_refl)))))).
Defined.

End EnsureDbAdmin.
